(** * invoke_transfer.py: the transfer orchestration and its HTTP sub-routines

    A shallow embedding of [get_auth_token], [validate_account],
    [get_account_balance] and [transfer_money] of
    submissions/nikeshboopath-jpg/invoke_transfer.py.

    - Python values that travel through JSON are the inductive [value].
    - Python floats are IEEE binary64 numbers, here [spec_float] at
      precision 53 and maximal exponent 1024.
    - A function that talks to the network is a tree of requests ([prog]);
      [run] plays such a tree against an arbitrary remote service and
      records the requests that were issued.
    - Exceptions are explicit: a [prog] ends in [Ret] or in [Raise].
    - A Python [str] is a [string] whose characters are its code points,
      each below 256; text with other characters is outside the model.
    - A call of [requests.get] or [requests.post] is made with arguments
      that [requests] accepts (a positive timeout, header values it can
      encode): it gives a response or raises a [RequestException].
      [resp.json()] gives the decoded body or raises its [JSONDecodeError];
      a body nested so deeply that the decoder gives up with
      [RecursionError] is outside the model. The statements below are
      about such calls and such bodies.
    - The [logger] calls only observe; they are left out. *)

From Stdlib Require Import ZArith List Bool Ascii String Lia.
From Stdlib Require Import Floats.SpecFloat.
Import ListNotations.
Open Scope string_scope.
Set Warnings "-register-all".

(** ** Python [str] methods used by the module *)

Module Str.

Definition is_empty (s : string) : bool :=
  match s with EmptyString => true | String _ _ => false end.

(** [s.rstrip(c)] for a one-character argument: every trailing [c] goes. *)
Fixpoint rstrip (c : ascii) (s : string) : string :=
  match s with
  | EmptyString => EmptyString
  | String a r =>
      let r' := rstrip c r in
      if is_empty r' && Ascii.eqb a c then EmptyString else String a r'
  end.

Fixpoint lstrip_by (p : ascii -> bool) (s : string) : string :=
  match s with
  | EmptyString => EmptyString
  | String a r => if p a then lstrip_by p r else s
  end.

Fixpoint rstrip_by (p : ascii -> bool) (s : string) : string :=
  match s with
  | EmptyString => EmptyString
  | String a r =>
      let r' := rstrip_by p r in
      if is_empty r' && p a then EmptyString else String a r'
  end.

(** [c.isspace()] for a character below 256: TAB, LF, VT, FF, CR, the four
    separators 0x1c-0x1f, the space, NEL (0x85) and the no-break space
    (0xa0). *)
Definition isspace (c : ascii) : bool :=
  let n := nat_of_ascii c in
  (((9 <=? n) && (n <=? 13)) || ((28 <=? n) && (n <=? 32))
   || (n =? 133) || (n =? 160))%nat.

(** Every character of [s] is below 128. *)
Fixpoint is_ascii (s : string) : bool :=
  match s with
  | EmptyString => true
  | String a r => (nat_of_ascii a <? 128)%nat && is_ascii r
  end.

(** [s.strip()] *)
Definition strip (s : string) : string := rstrip_by isspace (lstrip_by isspace s).

(** [s.startswith(p)] *)
Fixpoint startswith (s p : string) : bool :=
  match p, s with
  | EmptyString, _ => true
  | String b p', String a s' => Ascii.eqb a b && startswith s' p'
  | String _ _, EmptyString => false
  end.

(** [s.endswith(p)] *)
Fixpoint endswith (s p : string) : bool :=
  String.eqb s p ||
  match s with
  | EmptyString => false
  | String _ s' => endswith s' p
  end.

(** [p in s] *)
Fixpoint contains (p s : string) : bool :=
  startswith s p ||
  match s with
  | EmptyString => false
  | String _ s' => contains p s'
  end.

(** [s.lower()], for characters below 256: the letters A-Z, and the
    letters from 0xc0 to 0xde apart from the multiplication sign 0xd7. *)
Definition lower_ascii (c : ascii) : ascii :=
  let n := nat_of_ascii c in
  if (((65 <=? n) && (n <=? 90))
      || ((192 <=? n) && (n <=? 222) && negb (n =? 215)))%nat
  then ascii_of_nat (n + 32) else c.

Fixpoint lower (s : string) : string :=
  match s with
  | EmptyString => EmptyString
  | String a r => String (lower_ascii a) (lower r)
  end.

(** The last character of [s] is [c]. *)
Fixpoint ends_with_char (c : ascii) (s : string) : bool :=
  match s with
  | EmptyString => false
  | String a EmptyString => Ascii.eqb a c
  | String _ r => ends_with_char c r
  end.

End Str.

(** ** Python floats *)

Module Float.

Definition float := spec_float.

Definition prec : Z := 53.
Definition emax : Z := 1024.

(** [a < b], [a <= b] and [a > b] on floats; every comparison with a NaN
    is false. *)
Definition lt (a b : float) : bool := SFltb a b.
Definition le (a b : float) : bool := SFleb a b.
Definition gt (a b : float) : bool := SFltb b a.
Definition ge (a b : float) : bool := SFleb b a.

(** The double nearest to the integer [z] (ties to even); an infinity when
    [z] is out of range. *)
Definition of_Z (z : Z) : float := binary_normalize prec emax z 0 false.

(** The double nearest to [(-1)^s * m * 10^e] for [m >= 0]. For [e < 0] the
    quotient [m / 10^(-e)] is rounded once, by the division of the
    specification, which takes mantissas of any size. *)
Definition of_decimal (s : bool) (m : Z) (e : Z) : float :=
  match m with
  | Zpos p =>
      match e with
      | Zneg k => SFdiv prec emax (S754_finite s p 0) (S754_finite false (Pos.pow 10 k) 0)
      | _ => binary_normalize prec emax (cond_Zopp s (Zpos p * 10 ^ e)) 0 s
      end
  | _ => S754_zero s
  end.

Definition is_infinite (f : float) : bool :=
  match f with S754_infinity _ => true | _ => false end.

Definition is_zero (f : float) : bool :=
  match f with S754_zero _ => true | _ => false end.

(** *** [float(s)] for a string [s]

    The grammar of the language reference, on text of characters below
    256: optional sign, then [inf], [infinity] or [nan] in any letter case,
    or a decimal number [digits[.digits]] or [.digits] with an optional
    exponent; single underscores may separate digits; blanks around the
    text are dropped. [None] stands for [ValueError]. *)

Local Open Scope Z_scope.

Definition digit_of (c : ascii) : option Z :=
  let n := nat_of_ascii c in
  if ((48 <=? n) && (n <=? 57))%nat then Some (Z.of_nat (n - 48)) else None.

(** The rest of a digit part, after a first digit: the value read so far,
    the number of digits read, and what is left. *)
Fixpoint digits_rest (s : string) (acc : Z) (n : Z) : Z * Z * string :=
  match s with
  | String c r =>
      match digit_of c with
      | Some d => digits_rest r (10 * acc + d) (n + 1)
      | None =>
          if Ascii.eqb c "_" then
            match r with
            | String c' r' =>
                match digit_of c' with
                | Some d => digits_rest r' (10 * acc + d) (n + 1)
                | None => (acc, n, s)
                end
            | EmptyString => (acc, n, s)
            end
          else (acc, n, s)
      end
  | EmptyString => (acc, n, s)
  end.

Definition digitpart (s : string) (acc : Z) : option (Z * Z * string) :=
  match s with
  | String c r =>
      match digit_of c with
      | Some d => Some (digits_rest r (10 * acc + d) 1)
      | None => None
      end
  | EmptyString => None
  end.

Definition sign_of (s : string) : bool * string :=
  match s with
  | String "-" r => (true, r)
  | String "+" r => (false, r)
  | _ => (false, s)
  end.

(** [number]: the digits as one integer, the number of digits after the
    point, and what is left. *)
Definition number (s : string) : option (Z * Z * string) :=
  match digitpart s 0 with
  | Some (i, _, String "." r) =>
      match digitpart r i with
      | Some res => Some res
      | None => Some (i, 0, r)
      end
  | Some (i, _, r) => Some (i, 0, r)
  | None =>
      match s with
      | String "." r => digitpart r 0
      | _ => None
      end
  end.

Definition exponent (s : string) : option (Z * string) :=
  match s with
  | EmptyString => Some (0, s)
  | String c r =>
      if Ascii.eqb c "e" || Ascii.eqb c "E" then
        let (neg, r') := sign_of r in
        match digitpart r' 0 with
        | Some (e, _, rest) => Some (if neg then - e else e, rest)
        | None => None
        end
      else Some (0, s)
  end.

(** The blanks that [float] drops around its text: TAB, LF, VT, FF, CR and
    the space, and of the characters from 128 on those that are white
    space, NEL and the no-break space. The separators 0x1c-0x1f, which
    [str.strip] drops, are not among them. *)
Definition isblank (c : ascii) : bool :=
  let n := nat_of_ascii c in
  (((9 <=? n) && (n <=? 13)) || (n =? 32) || (n =? 133) || (n =? 160))%nat.

Definition of_string (text : string) : option float :=
  let (neg, s) := sign_of (Str.rstrip_by isblank (Str.lstrip_by isblank text)) in
  let l := Str.lower s in
  if String.eqb l "inf" || String.eqb l "infinity" then Some (S754_infinity neg)
  else if String.eqb l "nan" then Some S754_nan
  else
    match number s with
    | Some (m, nfrac, r) =>
        match exponent r with
        | Some (e, EmptyString) => Some (of_decimal neg m (e - nfrac))
        | _ => None
        end
    | None => None
    end.

End Float.
Export Float(float).

(** ** Python values and exceptions *)

(** What [json.loads] can produce, and what the functions below return.
    A [dict] is an association list, looked up from the left. *)
Inductive value : Type :=
| VNone
| VBool (b : bool)
| VInt (z : Z)
| VFloat (f : float)
| VStr (s : string)
| VList (l : list value)
| VDict (d : list (string * value)).

Definition dict := list (string * value).

Fixpoint lookup {A : Type} (k : string) (d : list (string * A)) : option A :=
  match d with
  | [] => None
  | (k', v) :: d' => if String.eqb k' k then Some v else lookup k d'
  end.

(** The exception classes that can occur. [JSONDecodeError] is the one of
    [requests]: a [RequestException] and a [ValueError] at once. *)
Inductive exn : Type :=
| RequestException
| HTTPError
| JSONDecodeError
| ValueError
| TypeError
| KeyError
| AttributeError
| OverflowError.

Definition is_RequestException (e : exn) : bool :=
  match e with
  | RequestException | HTTPError | JSONDecodeError => true
  | _ => false
  end.

Definition is_HTTPError (e : exn) : bool :=
  match e with HTTPError => true | _ => false end.

Definition is_ValueError (e : exn) : bool :=
  match e with
  | ValueError | JSONDecodeError => true
  | _ => false
  end.

(** ** HTTP requests and responses *)

Inductive method : Type := GET | POST.

(** The arguments of one [requests.get] or [requests.post] call. *)
Record request : Type := mkRequest {
  req_method : method;
  req_url : string;
  req_json : option value;
  req_headers : option (list (string * string));
  req_timeout : float
}.

(** A response, with the four attributes the module reads:
    [json_body = None] when [resp.json()] raises. *)
Record response : Type := mkResponse {
  status_code : Z;
  headers : list (string * string);
  json_body : option value;
  text : string
}.

(** What a call to the transport gives, once [requests] has accepted its
    arguments: a response, or a [RequestException] (connection refused, DNS
    failure, timeout). *)
Inductive outcome : Type :=
| Failed
| Replied (resp : response).

(** ** Programs that issue requests *)

Inductive prog (A : Type) : Type :=
| Ret (a : A)
| Raise (e : exn)
| Send (r : request) (k : outcome -> prog A).

Arguments Ret {A} a.
Arguments Raise {A} e.
Arguments Send {A} r k.

Fixpoint bind {A B : Type} (p : prog A) (f : A -> prog B) : prog B :=
  match p with
  | Ret a => f a
  | Raise e => Raise e
  | Send r k => Send r (fun o => bind (k o) f)
  end.

(** [try: p  except ...: h]: the handler [h] answers [None] for an exception
    that no [except] clause matches. *)
Fixpoint try_except {A : Type} (p : prog A) (h : exn -> option (prog A)) : prog A :=
  match p with
  | Ret a => Ret a
  | Raise e => match h e with Some q => q | None => Raise e end
  | Send r k => Send r (fun o => try_except (k o) h)
  end.

Declare Scope prog_scope.
Delimit Scope prog_scope with prog.
Bind Scope prog_scope with prog.
Notation "x <- p ;; q" := (bind p (fun x => q))
  (at level 61, p at next level, right associativity) : prog_scope.
Notation "p ;; q" := (bind p (fun _ => q))
  (at level 61, right associativity) : prog_scope.
Open Scope prog_scope.

Inductive result (A : Type) : Type :=
| Ok (a : A)
| Raised (e : exn).

Arguments Ok {A} a.
Arguments Raised {A} e.

(** Playing a program against a remote service: the service has a state of
    its own and answers every request; the requests issued are recorded in
    order. *)
Section Run.

Variable World : Type.
Variable send : request -> World -> outcome * World.

Fixpoint run {A : Type} (p : prog A) (w : World) : result A * World * list request :=
  match p with
  | Ret a => (Ok a, w, [])
  | Raise e => (Raised e, w, [])
  | Send r k =>
      let (o, w') := send r w in
      let '(res, w'', t) := run (k o) w' in
      (res, w'', r :: t)
  end.

Definition returned {A : Type} (x : result A * World * list request) : result A :=
  fst (fst x).

Definition trace {A : Type} (x : result A * World * list request) : list request :=
  snd x.

End Run.

Arguments run {World} send {A} p w.
Arguments returned {World A} x.
Arguments trace {World A} x.

(** Every request a program can ever issue satisfies [P]. *)
Fixpoint always_sends {A : Type} (P : request -> Prop) (p : prog A) : Prop :=
  match p with
  | Ret _ => True
  | Raise _ => True
  | Send r k => P r /\ forall o, always_sends P (k o)
  end.

(** ** The builtins and the [requests] calls the module uses *)

(** Truth value of an object, as [if x:] and [x or y] test it. *)
Definition truthy (v : value) : bool :=
  match v with
  | VNone => false
  | VBool b => b
  | VInt z => negb (z =? 0)%Z
  | VFloat f => negb (Float.is_zero f)
  | VStr s => negb (Str.is_empty s)
  | VList l => match l with [] => false | _ => true end
  | VDict d => match d with [] => false | _ => true end
  end.

(** [float(x)]: numbers and booleans convert ([OverflowError] for an integer
    beyond the doubles), a string is parsed ([ValueError] when it is not a
    number), anything else is a [TypeError]. *)
Definition py_float (v : value) : prog float :=
  match v with
  | VFloat f => Ret f
  | VInt z =>
      let f := Float.of_Z z in
      if Float.is_infinite f then Raise OverflowError else Ret f
  | VBool b => Ret (Float.of_Z (if b then 1 else 0))
  | VStr s =>
      match Float.of_string s with
      | Some f => Ret f
      | None => Raise ValueError
      end
  | VNone | VList _ | VDict _ => Raise TypeError
  end.

(** [isinstance(x, dict)] and [isinstance(x, (int, float))]; [bool] is a
    subclass of [int]. *)
Definition is_dict (v : value) : bool :=
  match v with VDict _ => true | _ => false end.

Definition is_int_or_float (v : value) : bool :=
  match v with VInt _ | VFloat _ | VBool _ => true | _ => false end.

(** [k in data] for a [data] known to be a dict. *)
Definition dict_contains (k : string) (v : value) : bool :=
  match v with
  | VDict d => match lookup k d with Some _ => true | None => false end
  | _ => false
  end.

(** [data[k]] *)
Definition subscript (v : value) (k : string) : prog value :=
  match v with
  | VDict d =>
      match lookup k d with
      | Some x => Ret x
      | None => Raise KeyError
      end
  | _ => Raise TypeError
  end.

(** [data.get(k)]: only a dict has the method. *)
Definition get_method (v : value) (k : string) : prog value :=
  match v with
  | VDict d =>
      match lookup k d with
      | Some x => Ret x
      | None => Ret VNone
      end
  | _ => Raise AttributeError
  end.

Definition requests_get (url : string) (hdrs : list (string * string)) (timeout : float)
  : prog response :=
  Send (mkRequest GET url None (Some hdrs) timeout)
       (fun o => match o with Failed => Raise RequestException | Replied resp => Ret resp end).

Definition requests_post (url : string) (json : value)
    (hdrs : option (list (string * string))) (timeout : float) : prog response :=
  Send (mkRequest POST url (Some json) hdrs timeout)
       (fun o => match o with Failed => Raise RequestException | Replied resp => Ret resp end).

(** [resp.raise_for_status()]: [HTTPError] for a 4xx or 5xx status. *)
Definition raise_for_status (resp : response) : prog unit :=
  if ((400 <=? status_code resp) && (status_code resp <? 600))%Z
  then Raise HTTPError else Ret tt.

(** [resp.json()], for a body that the decoder returns or refuses with
    [JSONDecodeError]. *)
Definition resp_json (resp : response) : prog value :=
  match json_body resp with
  | Some v => Ret v
  | None => Raise JSONDecodeError
  end.

(** [resp.headers.get(k, default)]; the header names of a response compare
    without regard to letter case. *)
Fixpoint headers_get (h : list (string * string)) (k default : string) : string :=
  match h with
  | [] => default
  | (k', v) :: h' =>
      if String.eqb (Str.lower k') (Str.lower k) then v else headers_get h' k default
  end.

(** [headers or {}] and [headers or None] *)
Definition or_empty {A : Type} (h : option (list A)) : list A :=
  match h with
  | Some l => l
  | None => []
  end.

Definition or_none {A : Type} (h : list A) : option (list A) :=
  match h with
  | [] => None
  | _ :: _ => Some h
  end.

(** [s or d] for strings. *)
Definition str_or (s d : string) : string :=
  if Str.is_empty s then d else s.

(** ** invoke_transfer.py *)

Definition DEFAULT_ENDPOINT : string := "http://localhost:8123/".
Definition DEFAULT_TIMEOUT : float := Float.of_decimal false 50 (-1).

Definition get_auth_token (base_url username password claim : string) (timeout : float)
  : prog value :=
  let url := Str.rstrip "/" base_url ++ "/authToken?claim=" ++ claim in
  try_except
    (resp <- requests_post url
               (VDict [("username", VStr username); ("password", VStr password)])
               None timeout ;;
     raise_for_status resp ;;
     data <- resp_json resp ;;
     t <- get_method data "token" ;;
     token <- (if truthy t then Ret t else get_method data "access_token") ;;
     if truthy token then Ret token else Ret VNone)
    (fun e =>
       if is_RequestException e then Some (Ret VNone)
       else if is_ValueError e then Some (Ret VNone)
       else None).

Definition validate_account (account_id base_url : string)
    (hdrs : option (list (string * string))) (timeout : float) : prog bool :=
  let url := Str.rstrip "/" base_url ++ "/accounts/validate/" ++ account_id in
  try_except
    (resp <- requests_get url (or_empty hdrs) timeout ;;
     if (status_code resp =? 200)%Z then Ret true else Ret false)
    (fun e => if is_RequestException e then Some (Ret false) else None).

Definition get_account_balance (account_id base_url : string)
    (hdrs : option (list (string * string))) (timeout : float) : prog (option float) :=
  let url := Str.rstrip "/" base_url ++ "/accounts/balance/" ++ account_id in
  try_except
    (resp <- requests_get url (or_empty hdrs) timeout ;;
     raise_for_status resp ;;
     try_except
       (data <- resp_json resp ;;
        if is_dict data && dict_contains "balance" data then
          b <- subscript data "balance" ;;
          f <- py_float b ;;
          Ret (Some f)
        else if is_int_or_float data then
          f <- py_float data ;;
          Ret (Some f)
        else Ret None)
       (fun e =>
          if is_ValueError e then
            let text := Str.strip (text resp) in
            Some (try_except
                    (f <- py_float (VStr text) ;; Ret (Some f))
                    (fun e' => if is_ValueError e' then Some (Ret None) else None))
          else None))
    (fun e => if is_RequestException e then Some (Ret None) else None).

(** The target of the transfer POST, as [transfer_money] computes it from
    its [endpoint] (already defaulted). *)
Definition post_url (endpoint : string) : string :=
  let base := Str.rstrip "/" (str_or endpoint DEFAULT_ENDPOINT) in
  if Str.endswith base "/transfer" then base else base ++ "/transfer".

(** The [headers] dict that [transfer_money] builds from its [auth_token]. *)
Definition auth_headers (auth_token : option string) : list (string * string) :=
  match auth_token with
  | Some t => if negb (Str.is_empty t) then [("Authorization", "Bearer " ++ t)] else []
  | None => []
  end.

Definition insufficient_funds (balance amount : float) : value :=
  VDict [("status", VStr "FAILED"); ("message", VStr "Insufficient funds");
         ("availableBalance", VFloat balance); ("requestedAmount", VFloat amount)].

Definition transfer_money (from_acc to_acc : string) (amount : float)
    (endpoint : option string) (timeout : float) (auth_token : option string)
  : prog value :=
  let payload :=
    VDict [("fromAccount", VStr from_acc); ("toAccount", VStr to_acc);
           ("amount", VFloat amount)] in
  let endpoint := match endpoint with None => DEFAULT_ENDPOINT | Some e => e end in
  let hdrs := auth_headers auth_token in
  src_ok <- validate_account from_acc (str_or endpoint DEFAULT_ENDPOINT) (Some hdrs) timeout ;;
  if negb src_ok then Ret VNone else
  dst_ok <- validate_account to_acc (str_or endpoint DEFAULT_ENDPOINT) (Some hdrs) timeout ;;
  if negb dst_ok then Ret VNone else
  balance <- get_account_balance from_acc (str_or endpoint DEFAULT_ENDPOINT) (Some hdrs) timeout ;;
  match balance with
  | None => Ret VNone
  | Some balance =>
      if Float.gt amount balance then Ret (insufficient_funds balance amount) else
      try_except
        (response <- requests_post (post_url endpoint) payload
                       (or_none hdrs) timeout ;;
         raise_for_status response ;;
         let content_type := headers_get (headers response) "Content-Type" "" in
         result <- (if Str.contains "application/json" content_type
                    then resp_json response
                    else Ret (VDict [("text", VStr (text response))])) ;;
         Ret result)
        (fun e =>
           if is_HTTPError e then Some (Ret VNone)
           else if is_RequestException e then Some (Ret VNone)
           else if is_ValueError e then Some (Ret VNone)
           else None)
  end.

(** ** The requests of one transfer, by name *)

(** The endpoint [transfer_money] works with: the default one when none, or
    an empty one, is given. *)
Definition base_endpoint (endpoint : option string) : string :=
  str_or (match endpoint with None => DEFAULT_ENDPOINT | Some e => e end) DEFAULT_ENDPOINT.

Definition validate_request (account_id base_url : string)
    (hdrs : list (string * string)) (timeout : float) : request :=
  mkRequest GET (Str.rstrip "/" base_url ++ "/accounts/validate/" ++ account_id)
            None (Some hdrs) timeout.

Definition balance_request (account_id base_url : string)
    (hdrs : list (string * string)) (timeout : float) : request :=
  mkRequest GET (Str.rstrip "/" base_url ++ "/accounts/balance/" ++ account_id)
            None (Some hdrs) timeout.

Definition transfer_request (from_acc to_acc : string) (amount : float)
    (endpoint : option string) (timeout : float) (auth_token : option string) : request :=
  mkRequest POST
    (post_url (match endpoint with None => DEFAULT_ENDPOINT | Some e => e end))
    (Some (VDict [("fromAccount", VStr from_acc); ("toAccount", VStr to_acc);
                  ("amount", VFloat amount)]))
    (or_none (auth_headers auth_token)) timeout.

(** From the state [w0] of the service, a call of [transfer_money] gets as
    far as the submission: both validations are answered with status 200,
    the balance fetch yields a balance, and [amount > balance] is false. *)
Definition reaches_submission {World : Type} (send : request -> World -> outcome * World)
    (from_acc to_acc : string) (amount : float) (endpoint : option string)
    (timeout : float) (auth_token : option string) (w0 : World) : Prop :=
  exists (r1 r2 : response) (w1 w2 w3 : World) (balance : float) (t3 : list request),
    send (validate_request from_acc (base_endpoint endpoint) (auth_headers auth_token)
            timeout) w0 = (Replied r1, w1)
    /\ status_code r1 = 200%Z
    /\ send (validate_request to_acc (base_endpoint endpoint) (auth_headers auth_token)
               timeout) w1 = (Replied r2, w2)
    /\ status_code r2 = 200%Z
    /\ run send (get_account_balance from_acc (base_endpoint endpoint)
                   (Some (auth_headers auth_token)) timeout) w2
       = (Ok (Some balance), w3, t3)
    /\ Float.gt amount balance = false.

(** An account validation counts as passed: a reply with status 200. *)
Definition is_200 (o : outcome) : bool :=
  match o with
  | Replied r => (status_code r =? 200)%Z
  | Failed => false
  end.

(** A status that [raise_for_status] lets through. *)
Definition status_ok (r : response) : bool :=
  negb ((400 <=? status_code r) && (status_code r <? 600))%Z.

(** The last phase of [transfer_money], after the balance check: the
    [try] block with its three [except] clauses. *)
Definition submit_transfer (from_acc to_acc : string) (amount : float)
    (endpoint : option string) (timeout : float) (auth_token : option string)
  : prog value :=
  try_except
    (response <- requests_post
                   (post_url (match endpoint with None => DEFAULT_ENDPOINT | Some e => e end))
                   (VDict [("fromAccount", VStr from_acc); ("toAccount", VStr to_acc);
                           ("amount", VFloat amount)])
                   (or_none (auth_headers auth_token)) timeout ;;
     raise_for_status response ;;
     let content_type := headers_get (headers response) "Content-Type" "" in
     result <- (if Str.contains "application/json" content_type
                then resp_json response
                else Ret (VDict [("text", VStr (text response))])) ;;
     Ret result)
    (fun e =>
       if is_HTTPError e then Some (Ret VNone)
       else if is_RequestException e then Some (Ret VNone)
       else if is_ValueError e then Some (Ret VNone)
       else None).

(** What the transfer POST's outcome is turned into. *)
Definition transfer_result (o : outcome) : value :=
  match o with
  | Failed => VNone
  | Replied r =>
      if status_ok r then
        if Str.contains "application/json" (headers_get (headers r) "Content-Type" "") then
          match json_body r with
          | Some j => j
          | None => VNone
          end
        else VDict [("text", VStr (text r))]
      else VNone
  end.

(** The value of the [Authorization] header of a request, if it has one. *)
Definition authorization (r : request) : option string :=
  match req_headers r with
  | Some h => lookup "Authorization" h
  | None => None
  end.

Definition auth_request (base_url username password claim : string) (timeout : float)
  : request :=
  mkRequest POST (Str.rstrip "/" base_url ++ "/authToken?claim=" ++ claim)
            (Some (VDict [("username", VStr username); ("password", VStr password)]))
            None timeout.


(** ** A scripted remote service

    Its state is the list of outcomes still to be given; it answers each
    request with the next one, and fails once the script is over. *)
Definition scripted (r : request) (w : list outcome) : outcome * list outcome :=
  match w with
  | o :: w' => (o, w')
  | [] => (Failed, [])
  end.

Definition f1000 : float := Float.of_decimal false 1000 0.
Definition f100 : float := Float.of_decimal false 100 0.
Definition f50 : float := Float.of_decimal false 50 0.
Definition f1 : float := Float.of_decimal false 1 0.

Definition json_response (status : Z) (v : value) : response :=
  mkResponse status [("Content-Type", "application/json")] (Some v) "".

Definition f0 : float := S754_zero false.

(** The replies of tests/test_transfer.py. *)
Definition ok_empty : response := json_response 200 (VDict []).

Definition balance_reply (f : float) : response :=
  json_response 200 (VDict [("id", VStr "ACC1000"); ("balance", VFloat f)]).

Definition tx123 : value :=
  VDict [("transactionId", VStr "tx123"); ("status", VStr "SUCCESS")].

(** ** Configuration and the command-line entry point *)

(** The [cfg] dict of [load_config]: its three keys. *)
Record config : Type := mkConfig {
  cfg_endpoint : string;
  cfg_dry_run : bool;
  cfg_timeout : float
}.

(** A configuration file as [ConfigParser] holds it after [read]: the
    options of the DEFAULT section, and the named sections with theirs.
    Option names are in lower case and values are as [get] gives them,
    that is after interpolation. A file that [read] refuses, or in which
    [get] raises for one of the three options (a value with a stray
    percent sign), is outside the model: [load_config] is stated only for
    files whose options [get] returns. *)
Record ini : Type := mkIni {
  ini_defaults : list (string * string);
  ini_sections : list (string * list (string * string))
}.

(** [os.getenv(k, default)] *)
Definition getenv (env : list (string * string)) (k default : string) : string :=
  match lookup k env with
  | Some v => v
  | None => default
  end.

(** The option [k] as [section.get] finds it: in the section, else in the
    DEFAULT section. *)
Definition section_find (parser : ini) (section : list (string * string)) (k : string)
  : option string :=
  match lookup k section with
  | Some v => Some v
  | None => lookup k (ini_defaults parser)
  end.

(** [section.get(k, fallback)] *)
Definition section_get (parser : ini) (section : list (string * string))
    (k fallback : string) : string :=
  match section_find parser section k with
  | Some v => v
  | None => fallback
  end.

(** [s.lower() in ("1", "true", "yes")] *)
Definition is_true_word (s : string) : bool :=
  let l := Str.lower s in
  String.eqb l "1" || String.eqb l "true" || String.eqb l "yes".

(** [str(b)] for a boolean *)
Definition str_of_bool (b : bool) : string := if b then "True" else "False".

(** [load_config(config_path)].

    - [env] is [os.environ] at the call.
    - [dotenv] holds the variables that [load_dotenv()] adds, those of the
      .env file; it is [None] when python-dotenv is absent, finds no file or
      fails. Variables already set keep their value.
    - [fs] gives the content of the configuration file at a path, [None]
      where [exists()] is false; [default_path] is config.ini beside the
      module.
    - In the last [float(...)] the fallback [str(cfg["timeout"])] reads
      back as [cfg["timeout"]] itself, so that value is taken as it is. *)
Definition load_config (env : list (string * string))
    (dotenv : option (list (string * string)))
    (fs : string -> option ini) (default_path : string) (config_path : option string)
  : result config :=
  match Float.of_string (getenv env "TIMEOUT" "5.0") with
  | None => Raised ValueError
  | Some timeout0 =>
      let cfg :=
        mkConfig (getenv env "TRANSFER_ENDPOINT" DEFAULT_ENDPOINT)
                 (is_true_word (getenv env "DRY_RUN" "true"))
                 timeout0 in
      let env := match dotenv with Some vars => (env ++ vars)%list | None => env end in
      let config_path := match config_path with Some p => p | None => default_path end in
      match fs config_path with
      | Some parser =>
          match lookup "transfer" (ini_sections parser) with
          | Some section =>
              let endpoint :=
                getenv env "TRANSFER_ENDPOINT"
                       (section_get parser section "endpoint" (cfg_endpoint cfg)) in
              let dry_run :=
                is_true_word
                  (getenv env "DRY_RUN"
                          (section_get parser section "dry_run"
                                       (str_of_bool (cfg_dry_run cfg)))) in
              let timeout :=
                match lookup "TIMEOUT" env with
                | Some v => Float.of_string v
                | None =>
                    match section_find parser section "timeout" with
                    | Some v => Float.of_string v
                    | None => Some (cfg_timeout cfg)
                    end
                end in
              match timeout with
              | Some t => Ok (mkConfig endpoint dry_run t)
              | None => Raised ValueError
              end
          | None => Ok cfg
          end
      | None => Ok cfg
      end
  end.

(** What [main] prints: the simulated result of a dry run, or the result
    of the transfer; the value is given as it is before formatting. *)
Inductive printed : Type :=
| SimulatedResult (v : value)
| TransferResult (v : value).

(** [main()] *)
Definition main (env : list (string * string))
    (dotenv : option (list (string * string)))
    (fs : string -> option ini) (default_path : string) : prog printed :=
  match load_config env dotenv fs default_path None with
  | Raised e => Raise e
  | Ok cfg =>
      let endpoint := cfg_endpoint cfg in
      let dry_run := cfg_dry_run cfg in
      let timeout := cfg_timeout cfg in
      let from_acc := "ACC1000" in
      let to_acc := "ACC1001" in
      let amount := f100 in
      if dry_run then
        Ret (SimulatedResult
               (VDict [("status", VStr "dry-run"); ("from", VStr from_acc);
                       ("to", VStr to_acc); ("amount", VFloat amount)]))
      else
        result <- transfer_money from_acc to_acc amount (Some endpoint) timeout None ;;
        Ret (TransferResult result)
  end.

(** A configuration file and an environment to try [load_config] on. *)
Definition example_ini : ini :=
  mkIni [("timeout", "2.5")]
        [("transfer", [("endpoint", "http://file/"); ("dry_run", "no")])].

Definition example_fs (path : string) : option ini :=
  if String.eqb path "config.ini" then Some example_ini else None.

Definition example_env : list (string * string) :=
  [("TRANSFER_ENDPOINT", "http://bank/"); ("DRY_RUN", "Yes"); ("TIMEOUT", "1")].

(** ** General facts about programs *)

Section RunFacts.

Context {World : Type} (send : request -> World -> outcome * World).

Lemma run_bind {A B : Type} (p : prog A) (f : A -> prog B) (w : World) :
  run send (bind p f) w =
  match run send p w with
  | (Ok a, w', t) =>
      let '(res, w'', t') := run send (f a) w' in (res, w'', (t ++ t')%list)
  | (Raised e, w', t) => (Raised e, w', t)
  end.
Proof.
  revert w; induction p as [a | e | r k IH]; intros w; simpl.
  - destruct (run send (f a) w) as [[res w''] t']; reflexivity.
  - reflexivity.
  - destruct (send r w) as [o w']. rewrite IH.
    destruct (run send (k o) w') as [[[a | e] w''] t]; simpl.
    + destruct (run send (f a) w'') as [[res w3] t']; reflexivity.
    + reflexivity.
Qed.

Lemma run_try_except {A : Type} (p : prog A) (h : exn -> option (prog A)) (w : World) :
  run send (try_except p h) w =
  match run send p w with
  | (Ok a, w', t) => (Ok a, w', t)
  | (Raised e, w', t) =>
      match h e with
      | Some q => let '(res, w'', t') := run send q w' in (res, w'', (t ++ t')%list)
      | None => (Raised e, w', t)
      end
  end.
Proof.
  revert w; induction p as [a | e | r k IH]; intros w; simpl.
  - reflexivity.
  - destruct (h e) as [q |]; simpl; [| reflexivity].
    destruct (run send q w) as [[res w''] t']; reflexivity.
  - destruct (send r w) as [o w']. rewrite IH.
    destruct (run send (k o) w') as [[[a | e] w''] t]; simpl; [reflexivity |].
    destruct (h e) as [q |]; [| reflexivity].
    destruct (run send q w'') as [[res w3] t']; reflexivity.
Qed.

Lemma always_sends_run {A : Type} (P : request -> Prop) (p : prog A) (w : World) :
  always_sends P p -> Forall P (trace (run send p w)).
Proof.
  revert w; induction p as [a | e | r k IH]; intros w Hp; simpl.
  - constructor.
  - constructor.
  - destruct Hp as [Hr Hk]. destruct (send r w) as [o w'].
    specialize (IH o w' (Hk o)).
    destruct (run send (k o) w') as [[res w''] t]. constructor; assumption.
Qed.

End RunFacts.

Lemma always_sends_bind {A B : Type} (P : request -> Prop) (p : prog A) (f : A -> prog B) :
  always_sends P p -> (forall a, always_sends P (f a)) -> always_sends P (bind p f).
Proof.
  induction p as [a | e | r k IH]; simpl; intros Hp Hf.
  - apply Hf.
  - exact I.
  - destruct Hp as [Hr Hk]. split; [assumption |]. intros o. apply IH; auto.
Qed.

Lemma always_sends_try_except {A : Type} (P : request -> Prop) (p : prog A)
    (h : exn -> option (prog A)) :
  always_sends P p -> (forall e q, h e = Some q -> always_sends P q) ->
  always_sends P (try_except p h).
Proof.
  induction p as [a | e | r k IH]; simpl; intros Hp Hh.
  - exact I.
  - destruct (h e) as [q |] eqn:E; [eapply Hh; eassumption | exact I].
  - destruct Hp as [Hr Hk]. split; [assumption |]. intros o. apply IH; auto.
Qed.

Lemma always_sends_weaken {A : Type} (P Q : request -> Prop) (p : prog A) :
  (forall r, P r -> Q r) -> always_sends P p -> always_sends Q p.
Proof.
  intros HPQ. induction p as [a | e | r k IH]; simpl; auto.
  intros [Hr Hk]. split; auto.
Qed.

(** ** Facts about the string methods *)

Module StrFacts.
Import Str.

Lemma is_empty_true (s : string) : is_empty s = true -> s = "".
Proof. destruct s; [reflexivity | discriminate]. Qed.

Lemma rstrip_id (c : ascii) (s : string) :
  ends_with_char c s = false -> rstrip c s = s.
Proof.
  induction s as [| a r IH]; [reflexivity |].
  simpl. destruct r as [| b r'].
  - simpl. intros ->. reflexivity.
  - intros H. rewrite (IH H). reflexivity.
Qed.

Lemma rstrip_no_trailing (c : ascii) (s : string) :
  ends_with_char c (rstrip c s) = false.
Proof.
  induction s as [| a r IH]; [reflexivity |].
  simpl. destruct (is_empty (rstrip c r)) eqn:E; simpl.
  - destruct (Ascii.eqb a c) eqn:Ea; [reflexivity |].
    apply is_empty_true in E. rewrite E. simpl. exact Ea.
  - destruct (rstrip c r); [discriminate | exact IH].
Qed.

Lemma rstrip_app_char (c : ascii) (s : string) :
  rstrip c (s ++ String c "") = rstrip c s.
Proof.
  induction s as [| a r IH]; simpl.
  - rewrite Ascii.eqb_refl. reflexivity.
  - rewrite IH. reflexivity.
Qed.

Lemma endswith_nonempty (s p : string) :
  endswith s p = true -> is_empty p = false -> is_empty s = false.
Proof.
  destruct s; simpl; [| reflexivity].
  destruct p; [intros _ H; exact H | discriminate].
Qed.

Lemma endswith_last (c : ascii) (s p : string) :
  endswith s p = true -> is_empty p = false ->
  ends_with_char c s = ends_with_char c p.
Proof.
  intros H Hp. induction s as [| a r IH].
  - apply endswith_nonempty in H; [discriminate | exact Hp].
  - cbn [endswith] in H. apply orb_true_iff in H. destruct H as [H | H].
    + apply String.eqb_eq in H. rewrite H. reflexivity.
    + specialize (IH H). rewrite <- IH.
      apply endswith_nonempty in H; [| exact Hp].
      simpl. destruct r; [discriminate | reflexivity].
Qed.




End StrFacts.

(** ** Facts about the float comparisons *)

Module FloatFacts.

Lemma SFcompare_antisym (a b : float) :
  SFcompare b a = option_map CompOpp (SFcompare a b).
Proof.
  destruct a as [sa | sa | | sa ma ea], b as [sb | sb | | sb mb eb];
    try destruct sa; try destruct sb; try reflexivity;
    simpl; rewrite (Z.compare_antisym ea eb);
    destruct (ea ?= eb)%Z; simpl; try reflexivity;
    change (Pos.compare_cont Eq mb ma) with (Pos.compare mb ma);
    change (Pos.compare_cont Eq ma mb) with (Pos.compare ma mb);
    rewrite (Pos.compare_antisym ma mb); try reflexivity;
    destruct (ma ?= mb)%positive; reflexivity.
Qed.

(** [balance >= amount] excludes [amount > balance]. *)
Lemma ge_not_gt (balance amount : float) :
  Float.ge balance amount = true -> Float.gt amount balance = false.
Proof.
  unfold Float.ge, Float.gt, SFleb, SFltb.
  rewrite (SFcompare_antisym amount balance).
  destruct (SFcompare amount balance) as [[ | | ] |]; simpl; congruence.
Qed.

(** [balance < amount] is [amount > balance]. *)
Lemma lt_gt (balance amount : float) :
  Float.lt balance amount = Float.gt amount balance.
Proof. reflexivity. Qed.

End FloatFacts.

Lemma or_empty_Some {A : Type} (h : list A) : or_empty (Some h) = h.
Proof. reflexivity. Qed.

Lemma status_2xx_ok (r : response) :
  (200 <= status_code r < 300)%Z -> status_ok r = true.
Proof.
  intros H. unfold status_ok.
  destruct (400 <=? status_code r)%Z eqn:E; [| reflexivity].
  apply Z.leb_le in E. lia.
Qed.

Lemma raise_for_status_ok (r : response) :
  status_ok r = true -> raise_for_status r = Ret tt.
Proof.
  unfold status_ok, raise_for_status.
  destruct ((400 <=? status_code r) && (status_code r <? 600))%Z; [discriminate | reflexivity].
Qed.

Lemma raise_for_status_error (r : response) :
  status_ok r = false -> raise_for_status r = Raise HTTPError.
Proof.
  unfold status_ok, raise_for_status.
  destruct ((400 <=? status_code r) && (status_code r <? 600))%Z; [reflexivity | discriminate].
Qed.

Section SubRoutines.

Context {World : Type} (send : request -> World -> outcome * World).

(** [validate_account] issues one GET and answers whether the reply had
    status 200. *)
Lemma run_validate_account (account_id base_url : string)
    (hdrs : list (string * string)) (timeout : float) (w : World) :
  run send (validate_account account_id base_url (Some hdrs) timeout) w =
  (Ok (is_200 (fst (send (validate_request account_id base_url hdrs timeout) w))),
   snd (send (validate_request account_id base_url hdrs timeout) w),
   [validate_request account_id base_url hdrs timeout]).
Proof.
  unfold validate_account, requests_get, validate_request.
  rewrite or_empty_Some. simpl.
  destruct (send _ w) as [[| resp] w']; simpl; [reflexivity |].
  destruct (status_code resp =? 200)%Z; reflexivity.
Qed.

(** A program that issues no request leaves the world alone. *)
Lemma run_no_send {A : Type} (p : prog A) (w : World) :
  always_sends (fun _ => False) p ->
  snd (fst (run send p w)) = w /\ trace (run send p w) = [].
Proof.
  destruct p as [a | e | r k]; simpl; [auto | auto | intros [[] _]].
Qed.

Lemma run_one_send {A : Type} (r : request) (k : outcome -> prog A) (w : World) :
  (forall o, always_sends (fun _ => False) (k o)) ->
  trace (run send (Send r k) w) = [r].
Proof.
  intros Hk. simpl. destruct (send r w) as [o w'].
  destruct (run_no_send (k o) w' (Hk o)) as [_ Ht].
  destruct (run send (k o) w') as [[res w''] t]. unfold trace in *. simpl in *.
  rewrite Ht. reflexivity.
Qed.

Lemma py_float_no_send (P : request -> Prop) (v : value) : always_sends P (py_float v).
Proof.
  destruct v as [| b | z | f | s | l | d]; simpl; try exact I.
  - destruct (Float.is_infinite (Float.of_Z z)); exact I.
  - destruct (Float.of_string s); exact I.
Qed.

(** What [get_account_balance] does once the reply is there issues no
    further request. *)
Lemma balance_parsing_no_send (P : request -> Prop) (resp : response) :
  always_sends P
    (raise_for_status resp ;;
     try_except
       (data <- resp_json resp ;;
        if is_dict data && dict_contains "balance" data then
          b <- subscript data "balance" ;;
          f <- py_float b ;;
          Ret (Some f)
        else if is_int_or_float data then
          f <- py_float data ;;
          Ret (Some f)
        else Ret None)
       (fun e =>
          if is_ValueError e then
            let text := Str.strip (text resp) in
            Some (try_except
                    (f <- py_float (VStr text) ;; Ret (Some f))
                    (fun e' => if is_ValueError e' then Some (Ret None) else None))
          else None)).
Proof.
  apply always_sends_bind.
  { unfold raise_for_status. destruct (_ && _); exact I. }
  intros _. apply always_sends_try_except.
  - apply always_sends_bind.
    { unfold resp_json. destruct (json_body resp); exact I. }
    intros data. destruct (is_dict data && dict_contains "balance" data).
    + apply always_sends_bind.
      { unfold subscript. destruct data; try exact I. destruct (lookup _ _); exact I. }
      intros b. apply always_sends_bind; [apply py_float_no_send | intros; exact I].
    + destruct (is_int_or_float data); [| exact I].
      apply always_sends_bind; [apply py_float_no_send | intros; exact I].
  - intros e q. destruct (is_ValueError e); [| discriminate].
    intros [= <-]. apply always_sends_try_except.
    + apply always_sends_bind;
        [apply (py_float_no_send P (VStr (Str.strip (text resp)))) | intros; exact I].
    + intros e' q'. destruct (is_ValueError e'); [| discriminate].
      intros [= <-]. exact I.
Qed.

(** [get_account_balance] issues exactly one request, the balance GET, in
    every case. *)
Lemma get_account_balance_trace (account_id base_url : string)
    (hdrs : list (string * string)) (timeout : float) (w : World) :
  trace (run send (get_account_balance account_id base_url (Some hdrs) timeout) w) =
  [balance_request account_id base_url hdrs timeout].
Proof.
  unfold get_account_balance, requests_get, balance_request. rewrite or_empty_Some.
  cbn [bind try_except]. apply run_one_send.
  intros [| resp]; [simpl; exact I |].
  apply always_sends_try_except.
  - apply (balance_parsing_no_send (fun _ => False) resp).
  - intros e q. destruct (is_RequestException e); [| discriminate].
    intros [= <-]. exact I.
Qed.

End SubRoutines.

(** ** The orchestrator, step by step *)

Section Orchestrator.

Context {World : Type} (send : request -> World -> outcome * World).
Variables (from_acc to_acc : string) (amount : float) (endpoint : option string)
          (timeout : float) (auth_token : option string).

Lemma run_submit_transfer (w : World) :
  run send (submit_transfer from_acc to_acc amount endpoint timeout auth_token) w =
  (Ok (transfer_result
         (fst (send (transfer_request from_acc to_acc amount endpoint timeout auth_token) w))),
   snd (send (transfer_request from_acc to_acc amount endpoint timeout auth_token) w),
   [transfer_request from_acc to_acc amount endpoint timeout auth_token]).
Proof.
  unfold submit_transfer, requests_post, transfer_request.
  cbn [bind try_except run].
  destruct (send _ w) as [[| r] w']; cbn [fst snd transfer_result bind].
  - reflexivity.
  - destruct (status_ok r) eqn:Es.
    + rewrite (raise_for_status_ok r Es). cbn [bind].
      destruct (Str.contains _ _).
      * unfold resp_json. destruct (json_body r); reflexivity.
      * reflexivity.
    + rewrite (raise_for_status_error r Es). reflexivity.
Qed.

(** [transfer_money] as the sequence of its four calls. *)
Lemma run_transfer_money (w0 : World) :
  run send (transfer_money from_acc to_acc amount endpoint timeout auth_token) w0 =
  let src := validate_request from_acc (base_endpoint endpoint) (auth_headers auth_token) timeout in
  let dst := validate_request to_acc (base_endpoint endpoint) (auth_headers auth_token) timeout in
  let (o1, w1) := send src w0 in
  if negb (is_200 o1) then (Ok VNone, w1, [src]) else
  let (o2, w2) := send dst w1 in
  if negb (is_200 o2) then (Ok VNone, w2, [src; dst]) else
  match run send (get_account_balance from_acc (base_endpoint endpoint)
                    (Some (auth_headers auth_token)) timeout) w2 with
  | (Raised e, w3, t3) => (Raised e, w3, src :: dst :: t3)
  | (Ok None, w3, t3) => (Ok VNone, w3, src :: dst :: t3)
  | (Ok (Some balance), w3, t3) =>
      if Float.gt amount balance
      then (Ok (insufficient_funds balance amount), w3, src :: dst :: t3)
      else
        let '(res, w4, t4) :=
          run send (submit_transfer from_acc to_acc amount endpoint timeout auth_token) w3 in
        (res, w4, (src :: dst :: t3 ++ t4)%list)
  end.
Proof.
  unfold transfer_money. fold (base_endpoint endpoint).
  cbv zeta. rewrite run_bind, run_validate_account.
  destruct (send _ w0) as [o1 w1]. cbn [fst snd].
  destruct (is_200 o1); cbn [negb]; [| reflexivity].
  rewrite run_bind, run_validate_account.
  destruct (send _ w1) as [o2 w2]. cbn [fst snd].
  destruct (is_200 o2); cbn [negb]; [| reflexivity].
  rewrite run_bind.
  destruct (run send (get_account_balance _ _ _ _) w2) as [[[[b |] | e] w3] t3];
    [| cbn [run app]; rewrite app_nil_r; reflexivity | reflexivity].
  destruct (Float.gt amount b); [cbn [run app]; rewrite app_nil_r; reflexivity |].
  fold (submit_transfer from_acc to_acc amount endpoint timeout auth_token).
  destruct (run send (submit_transfer _ _ _ _ _ _) w3) as [[res w4] t4].
  reflexivity.
Qed.

End Orchestrator.

(** ** The outcomes of [transfer_money] *)

Section Outcomes.

Context {World : Type} (send : request -> World -> outcome * World).
Variables (from_acc to_acc : string) (amount : float) (endpoint : option string)
          (timeout : float) (auth_token : option string).

Let src := validate_request from_acc (base_endpoint endpoint) (auth_headers auth_token) timeout.
Let dst := validate_request to_acc (base_endpoint endpoint) (auth_headers auth_token) timeout.
Let bal := balance_request from_acc (base_endpoint endpoint) (auth_headers auth_token) timeout.
Let post := transfer_request from_acc to_acc amount endpoint timeout auth_token.

(** C1. When both validations reply 200, the balance fetch yields a
    balance with [balance >= amount], and the transfer POST replies with a
    2xx status, a JSON content type and a body that parses to [j], then
    [transfer_money] returns [j] itself, after exactly the four calls. *)
Theorem transfer_money_success (w0 w1 w2 w3 w4 : World) (r1 r2 r4 : response)
    (balance : float) (t3 : list request) (j : value) :
  send src w0 = (Replied r1, w1) -> status_code r1 = 200%Z ->
  send dst w1 = (Replied r2, w2) -> status_code r2 = 200%Z ->
  run send (get_account_balance from_acc (base_endpoint endpoint)
              (Some (auth_headers auth_token)) timeout) w2
    = (Ok (Some balance), w3, t3) ->
  Float.ge balance amount = true ->
  send post w3 = (Replied r4, w4) ->
  (200 <= status_code r4 < 300)%Z ->
  Str.contains "application/json" (headers_get (headers r4) "Content-Type" "") = true ->
  json_body r4 = Some j ->
  run send (transfer_money from_acc to_acc amount endpoint timeout auth_token) w0
    = (Ok j, w4, [src; dst; bal; post]).
Proof.
  intros H1 S1 H2 S2 H3 Hge H4 S4 Hct Hj.
  assert (Ht3 : t3 = [bal]).
  { pose proof (get_account_balance_trace send from_acc (base_endpoint endpoint)
                  (auth_headers auth_token) timeout w2) as Ht.
    rewrite H3 in Ht. exact Ht. }
  rewrite run_transfer_money. cbv zeta. fold src dst.
  rewrite H1. cbn [is_200 negb]. rewrite S1. cbn [Z.eqb Pos.eqb negb].
  rewrite H2. cbn [is_200 negb]. rewrite S2. cbn [Z.eqb Pos.eqb negb].
  rewrite H3, (FloatFacts.ge_not_gt _ _ Hge), run_submit_transfer.
  fold post. rewrite H4. cbn [fst snd transfer_result].
  rewrite (status_2xx_ok r4 S4), Hct, Hj, Ht3. reflexivity.
Qed.

(** C2. When both validations reply 200 and the balance fetch yields a
    balance with [balance < amount], [transfer_money] returns the
    insufficient-funds dictionary with that balance and the requested
    amount, which is not [None], and the only calls made are the three
    GETs: no POST is issued. *)
Theorem transfer_money_insufficient_funds (w0 w1 w2 w3 : World) (r1 r2 : response)
    (balance : float) (t3 : list request) :
  send src w0 = (Replied r1, w1) -> status_code r1 = 200%Z ->
  send dst w1 = (Replied r2, w2) -> status_code r2 = 200%Z ->
  run send (get_account_balance from_acc (base_endpoint endpoint)
              (Some (auth_headers auth_token)) timeout) w2
    = (Ok (Some balance), w3, t3) ->
  Float.lt balance amount = true ->
  run send (transfer_money from_acc to_acc amount endpoint timeout auth_token) w0
    = (Ok (VDict [("status", VStr "FAILED"); ("message", VStr "Insufficient funds");
                  ("availableBalance", VFloat balance);
                  ("requestedAmount", VFloat amount)]),
       w3, [src; dst; bal])
  /\ VDict [("status", VStr "FAILED"); ("message", VStr "Insufficient funds");
            ("availableBalance", VFloat balance); ("requestedAmount", VFloat amount)]
     <> VNone
  /\ Forall (fun r => req_method r <> POST)
       (trace (run send (transfer_money from_acc to_acc amount endpoint timeout
                           auth_token) w0)).
Proof.
  intros H1 S1 H2 S2 H3 Hlt.
  assert (Ht3 : t3 = [bal]).
  { pose proof (get_account_balance_trace send from_acc (base_endpoint endpoint)
                  (auth_headers auth_token) timeout w2) as Ht.
    rewrite H3 in Ht. exact Ht. }
  assert (Hrun : run send (transfer_money from_acc to_acc amount endpoint timeout
                             auth_token) w0
                 = (Ok (insufficient_funds balance amount), w3, [src; dst; bal])).
  { rewrite run_transfer_money. cbv zeta. fold src dst.
    rewrite H1. cbn [is_200 negb]. rewrite S1. cbn [Z.eqb Pos.eqb negb].
    rewrite H2. cbn [is_200 negb]. rewrite S2. cbn [Z.eqb Pos.eqb negb].
    rewrite H3. rewrite (FloatFacts.lt_gt balance amount) in Hlt. rewrite Hlt, Ht3.
    reflexivity. }
  split; [exact Hrun |]. split; [discriminate |].
  rewrite Hrun. unfold trace. cbn [snd].
  repeat constructor; discriminate.
Qed.

(** C3. [validate_account] answers [True] exactly for a reply with status
    200 (another status and a transport failure both give [False]); when
    the source validation fails, [transfer_money] returns [None] having
    issued that one call only; when the destination validation fails, it
    returns [None] having issued the two validation calls only. *)
Theorem validation_short_circuits :
  (forall (account_id base_url : string) (hdrs : list (string * string)) (w : World),
      returned (run send (validate_account account_id base_url (Some hdrs) timeout) w)
      = Ok (match fst (send (validate_request account_id base_url hdrs timeout) w) with
            | Replied r => (status_code r =? 200)%Z
            | Failed => false
            end))
  /\ (forall (w0 w1 : World) (o1 : outcome),
         send src w0 = (o1, w1) -> is_200 o1 = false ->
         run send (transfer_money from_acc to_acc amount endpoint timeout auth_token) w0
         = (Ok VNone, w1, [src]))
  /\ (forall (w0 w1 w2 : World) (o1 o2 : outcome),
         send src w0 = (o1, w1) -> is_200 o1 = true ->
         send dst w1 = (o2, w2) -> is_200 o2 = false ->
         run send (transfer_money from_acc to_acc amount endpoint timeout auth_token) w0
         = (Ok VNone, w2, [src; dst])).
Proof.
  split; [| split].
  - intros account_id base_url hdrs w. rewrite run_validate_account. reflexivity.
  - intros w0 w1 o1 H1 V1. rewrite run_transfer_money. cbv zeta. fold src.
    rewrite H1, V1. reflexivity.
  - intros w0 w1 w2 o1 o2 H1 V1 H2 V2. rewrite run_transfer_money. cbv zeta. fold src dst.
    rewrite H1, V1. cbn [negb]. rewrite H2, V2. reflexivity.
Qed.

End Outcomes.

(** ** The scenarios of tests/test_transfer.py, against the scripted service *)

Lemma transfer_money_success_witness :
  run scripted (transfer_money "ACC1000" "ACC1001" f100 (Some "http://example") f1 None)
      [Replied ok_empty; Replied ok_empty; Replied (balance_reply f1000);
       Replied (json_response 200 tx123)]
  = (Ok tx123, [],
     [validate_request "ACC1000" "http://example" [] f1;
      validate_request "ACC1001" "http://example" [] f1;
      balance_request "ACC1000" "http://example" [] f1;
      transfer_request "ACC1000" "ACC1001" f100 (Some "http://example") f1 None]).
Proof.
  apply (transfer_money_success scripted "ACC1000" "ACC1001" f100 (Some "http://example")
           f1 None
           [Replied ok_empty; Replied ok_empty; Replied (balance_reply f1000);
            Replied (json_response 200 tx123)]
           [Replied ok_empty; Replied (balance_reply f1000); Replied (json_response 200 tx123)]
           [Replied (balance_reply f1000); Replied (json_response 200 tx123)]
           [Replied (json_response 200 tx123)] []
           ok_empty ok_empty (json_response 200 tx123) f1000
           [balance_request "ACC1000" "http://example" [] f1] tx123);
    try reflexivity.
  simpl; lia.
Defined.

Lemma transfer_money_insufficient_funds_witness :
  run scripted (transfer_money "ACC1000" "ACC1001" f100 (Some "http://example") f1 None)
      [Replied ok_empty; Replied ok_empty; Replied (balance_reply f50)]
  = (Ok (VDict [("status", VStr "FAILED"); ("message", VStr "Insufficient funds");
                ("availableBalance", VFloat f50); ("requestedAmount", VFloat f100)]),
     [],
     [validate_request "ACC1000" "http://example" [] f1;
      validate_request "ACC1001" "http://example" [] f1;
      balance_request "ACC1000" "http://example" [] f1]).
Proof.
  apply (transfer_money_insufficient_funds scripted "ACC1000" "ACC1001" f100
           (Some "http://example") f1 None
           [Replied ok_empty; Replied ok_empty; Replied (balance_reply f50)]
           [Replied ok_empty; Replied (balance_reply f50)]
           [Replied (balance_reply f50)] []
           ok_empty ok_empty f50
           [balance_request "ACC1000" "http://example" [] f1]);
    reflexivity.
Defined.

Lemma validation_short_circuits_witness :
  run scripted (transfer_money "ACC1000" "ACC1001" f100 (Some "http://example") f1 None)
      [Replied (json_response 404 (VDict [])); Replied ok_empty;
       Replied (balance_reply f1000)]
  = (Ok VNone, [Replied ok_empty; Replied (balance_reply f1000)],
     [validate_request "ACC1000" "http://example" [] f1])
  /\
  run scripted (transfer_money "ACC1000" "ACC1001" f100 (Some "http://example") f1 None)
      [Replied ok_empty; Failed; Replied (balance_reply f1000)]
  = (Ok VNone, [Replied (balance_reply f1000)],
     [validate_request "ACC1000" "http://example" [] f1;
      validate_request "ACC1001" "http://example" [] f1]).
Proof.
  split.
  - apply (proj1 (proj2 (validation_short_circuits scripted "ACC1000" "ACC1001" f100
                           (Some "http://example") f1 None))
             [Replied (json_response 404 (VDict [])); Replied ok_empty;
              Replied (balance_reply f1000)]
             [Replied ok_empty; Replied (balance_reply f1000)]
             (Replied (json_response 404 (VDict []))));
      reflexivity.
  - apply (proj2 (proj2 (validation_short_circuits scripted "ACC1000" "ACC1001" f100
                           (Some "http://example") f1 None))
             [Replied ok_empty; Failed; Replied (balance_reply f1000)]
             [Failed; Replied (balance_reply f1000)] [Replied (balance_reply f1000)]
             (Replied ok_empty) Failed);
      reflexivity.
Defined.

(** ** Every request [transfer_money] can issue *)

Section Requests.

Variable P : request -> Prop.

Lemma validate_account_sends (account_id base_url : string)
    (hdrs : list (string * string)) (timeout : float) :
  P (validate_request account_id base_url hdrs timeout) ->
  always_sends P (validate_account account_id base_url (Some hdrs) timeout).
Proof.
  intros Hreq. unfold validate_account, requests_get. rewrite or_empty_Some.
  cbn [bind try_except always_sends]. split; [exact Hreq |].
  intros [| resp]; cbn; [exact I |].
  destruct (status_code resp =? 200)%Z; exact I.
Qed.

Lemma get_account_balance_sends (account_id base_url : string)
    (hdrs : list (string * string)) (timeout : float) :
  P (balance_request account_id base_url hdrs timeout) ->
  always_sends P (get_account_balance account_id base_url (Some hdrs) timeout).
Proof.
  intros Hreq. unfold get_account_balance, requests_get. rewrite or_empty_Some.
  cbn [bind try_except always_sends]. split; [exact Hreq |].
  intros [| resp]; [cbn; exact I |].
  apply always_sends_try_except.
  - apply (balance_parsing_no_send P resp).
  - intros e q. destruct (is_RequestException e); [| discriminate].
    intros [= <-]. exact I.
Qed.

Lemma submit_transfer_sends (from_acc to_acc : string) (amount : float)
    (endpoint : option string) (timeout : float) (auth_token : option string) :
  P (transfer_request from_acc to_acc amount endpoint timeout auth_token) ->
  always_sends P (submit_transfer from_acc to_acc amount endpoint timeout auth_token).
Proof.
  intros Hreq. unfold submit_transfer, requests_post.
  cbn [bind try_except always_sends]. split; [exact Hreq |].
  intros [| resp]; [cbn; exact I |].
  apply always_sends_try_except.
  - cbn [bind]. apply always_sends_bind.
    { unfold raise_for_status. destruct (_ && _); exact I. }
    intros _. apply always_sends_bind; [| intros; exact I].
    destruct (Str.contains _ _); [| exact I].
    unfold resp_json. destruct (json_body resp); exact I.
  - intros e q. destruct (is_HTTPError e); [intros [= <-]; exact I |].
    destruct (is_RequestException e); [intros [= <-]; exact I |].
    destruct (is_ValueError e); [intros [= <-]; exact I | discriminate].
Qed.

(** The four requests of [transfer_money] are the only ones it can issue. *)
Lemma transfer_money_sends (from_acc to_acc : string) (amount : float)
    (endpoint : option string) (timeout : float) (auth_token : option string) :
  P (validate_request from_acc (base_endpoint endpoint) (auth_headers auth_token) timeout) ->
  P (validate_request to_acc (base_endpoint endpoint) (auth_headers auth_token) timeout) ->
  P (balance_request from_acc (base_endpoint endpoint) (auth_headers auth_token) timeout) ->
  P (transfer_request from_acc to_acc amount endpoint timeout auth_token) ->
  always_sends P (transfer_money from_acc to_acc amount endpoint timeout auth_token).
Proof.
  intros Hsrc Hdst Hbal Hpost. unfold transfer_money. fold (base_endpoint endpoint).
  cbv zeta. apply always_sends_bind; [apply validate_account_sends; exact Hsrc |].
  intros [|]; cbn [negb]; [| exact I].
  apply always_sends_bind; [apply validate_account_sends; exact Hdst |].
  intros [|]; cbn [negb]; [| exact I].
  apply always_sends_bind; [apply get_account_balance_sends; exact Hbal |].
  intros [b |]; [| exact I].
  destruct (Float.gt amount b); [exact I |].
  apply (submit_transfer_sends from_acc to_acc amount endpoint timeout auth_token Hpost).
Qed.

End Requests.

(** ** The transfer URL and the Authorization header *)


Lemma post_url_suffixed (e : string) :
  Str.endswith e "/transfer" = true -> post_url e = e.
Proof.
  intros H. unfold post_url, str_or.
  rewrite (StrFacts.endswith_nonempty e "/transfer" H eq_refl).
  rewrite (StrFacts.rstrip_id "/" e).
  - rewrite H. reflexivity.
  - rewrite (StrFacts.endswith_last "/" e "/transfer" H eq_refl). reflexivity.
Qed.



Section Urls.

Context {World : Type} (send : request -> World -> outcome * World).
Variables (from_acc to_acc : string) (amount : float) (endpoint : option string)
          (timeout : float) (auth_token : option string).

(** Whatever the service answers, a POST issued by [transfer_money] goes to
    [post_url] of the endpoint. *)
Lemma transfer_money_post_url (w : World) :
  Forall (fun r => req_method r = POST ->
                   req_url r = post_url (match endpoint with
                                         | None => DEFAULT_ENDPOINT
                                         | Some e => e
                                         end))
         (trace (run send (transfer_money from_acc to_acc amount endpoint timeout
                             auth_token) w)).
Proof.
  apply always_sends_run. apply transfer_money_sends;
    solve [discriminate | reflexivity].
Qed.

(** Whatever the service answers, the requests of [transfer_money] carry the
    [Authorization] header that [auth_headers] holds, or none. *)
Lemma transfer_money_authorization (w : World) :
  Forall (fun r => authorization r = lookup "Authorization" (auth_headers auth_token))
         (trace (run send (transfer_money from_acc to_acc amount endpoint timeout
                             auth_token) w)).
Proof.
  apply always_sends_run. apply transfer_money_sends; try reflexivity.
  unfold authorization, transfer_request. cbn [req_headers].
  destruct (auth_headers auth_token); reflexivity.
Qed.

End Urls.

(** C8. With the empty string as [auth_token], no request of
    [transfer_money] has an [Authorization] header, as with no token at all;
    with a non-empty token every request has [Authorization: Bearer token]. *)
Theorem empty_token_sends_no_authorization
    (World : Type) (send : request -> World -> outcome * World)
    (from_acc to_acc : string) (amount : float) (endpoint : option string)
    (timeout : float) (w : World) :
  Forall (fun r => authorization r = None)
         (trace (run send (transfer_money from_acc to_acc amount endpoint timeout
                             (Some "")) w))
  /\ Forall (fun r => authorization r = None)
            (trace (run send (transfer_money from_acc to_acc amount endpoint timeout
                                None) w))
  /\ (forall token : string, Str.is_empty token = false ->
        Forall (fun r => authorization r = Some ("Bearer " ++ token))
               (trace (run send (transfer_money from_acc to_acc amount endpoint timeout
                                   (Some token)) w))).
Proof.
  split; [| split].
  - apply (transfer_money_authorization send from_acc to_acc amount endpoint timeout
             (Some "") w).
  - apply (transfer_money_authorization send from_acc to_acc amount endpoint timeout
             None w).
  - intros token Htoken.
    pose proof (transfer_money_authorization send from_acc to_acc amount endpoint timeout
                  (Some token) w) as H.
    unfold auth_headers in H. rewrite Htoken in H. exact H.
Qed.

Lemma empty_token_sends_no_authorization_witness :
  Forall (fun r => authorization r = Some ("Bearer " ++ "secret"))
         (trace (run scripted
                   (transfer_money "ACC1000" "ACC1001" f100 (Some "http://example") f1
                      (Some "secret"))
                   [Replied ok_empty; Replied ok_empty; Replied (balance_reply f1000);
                    Replied (json_response 200 tx123)])).
Proof.
  apply (proj2 (proj2 (empty_token_sends_no_authorization (list outcome) scripted
                         "ACC1000" "ACC1001" f100 (Some "http://example") f1
                         [Replied ok_empty; Replied ok_empty; Replied (balance_reply f1000);
                          Replied (json_response 200 tx123)]))
           "secret").
  reflexivity.
Defined.

(** ** Balance parsing *)

Section Balance.

Context {World : Type} (send : request -> World -> outcome * World).
Variables (account_id base_url : string) (hdrs : list (string * string)) (timeout : float).

Let req := balance_request account_id base_url hdrs timeout.

Ltac balance_reply_step Hsend Hok :=
  unfold get_account_balance, requests_get; rewrite or_empty_Some;
  cbn [bind try_except run];
  fold (balance_request account_id base_url hdrs timeout); fold req;
  rewrite Hsend; cbn [bind];
  rewrite (raise_for_status_ok _ Hok); cbn [bind]; unfold resp_json.

(** Shape (a): an object with a [balance] field that holds a float. *)
Lemma get_account_balance_object (w w' : World) (r : response) (d : dict) (f : float) :
  send req w = (Replied r, w') -> status_ok r = true ->
  json_body r = Some (VDict d) -> lookup "balance" d = Some (VFloat f) ->
  run send (get_account_balance account_id base_url (Some hdrs) timeout) w
  = (Ok (Some f), w', [req]).
Proof.
  intros Hsend Hok Hjson Hbal. balance_reply_step Hsend Hok.
  rewrite Hjson. cbn [bind is_dict dict_contains andb subscript].
  rewrite Hbal. reflexivity.
Qed.

(** Shape (b): a bare JSON number. *)
Lemma get_account_balance_number (w w' : World) (r : response) (f : float) :
  send req w = (Replied r, w') -> status_ok r = true ->
  json_body r = Some (VFloat f) ->
  run send (get_account_balance account_id base_url (Some hdrs) timeout) w
  = (Ok (Some f), w', [req]).
Proof.
  intros Hsend Hok Hjson. balance_reply_step Hsend Hok.
  rewrite Hjson. reflexivity.
Qed.

(** Shape (c): a body that is not JSON, whose text is a number. *)
Lemma get_account_balance_text (w w' : World) (r : response) (f : float) :
  send req w = (Replied r, w') -> status_ok r = true ->
  json_body r = None -> Float.of_string (Str.strip (text r)) = Some f ->
  run send (get_account_balance account_id base_url (Some hdrs) timeout) w
  = (Ok (Some f), w', [req]).
Proof.
  intros Hsend Hok Hjson Htext. balance_reply_step Hsend Hok.
  rewrite Hjson. cbn [bind try_except is_ValueError py_float].
  rewrite Htext. reflexivity.
Qed.

(** A body that is not JSON and whose text is no number gives [None]. *)
Lemma get_account_balance_bad_text (w w' : World) (r : response) :
  send req w = (Replied r, w') -> status_ok r = true ->
  json_body r = None -> Float.of_string (Str.strip (text r)) = None ->
  run send (get_account_balance account_id base_url (Some hdrs) timeout) w
  = (Ok None, w', [req]).
Proof.
  intros Hsend Hok Hjson Htext. balance_reply_step Hsend Hok.
  rewrite Hjson. cbn [bind try_except is_ValueError py_float].
  rewrite Htext. reflexivity.
Qed.

(** JSON of another shape (no object with a [balance] field, no number)
    gives [None]. *)
Lemma get_account_balance_other_shape (w w' : World) (r : response) (v : value) :
  send req w = (Replied r, w') -> status_ok r = true ->
  json_body r = Some v ->
  is_dict v && dict_contains "balance" v = false -> is_int_or_float v = false ->
  run send (get_account_balance account_id base_url (Some hdrs) timeout) w
  = (Ok None, w', [req]).
Proof.
  intros Hsend Hok Hjson Hd Hn. balance_reply_step Hsend Hok.
  rewrite Hjson. cbn [bind]. rewrite Hd, Hn. reflexivity.
Qed.

(** A transport failure gives [None]. *)
Lemma get_account_balance_failed (w w' : World) :
  send req w = (Failed, w') ->
  run send (get_account_balance account_id base_url (Some hdrs) timeout) w
  = (Ok None, w', [req]).
Proof.
  intros Hsend. unfold get_account_balance, requests_get. rewrite or_empty_Some.
  cbn [bind try_except run].
  fold (balance_request account_id base_url hdrs timeout). fold req.
  rewrite Hsend. reflexivity.
Qed.

(** A 4xx or 5xx status gives [None]. *)
Lemma get_account_balance_http_error (w w' : World) (r : response) :
  send req w = (Replied r, w') -> status_ok r = false ->
  run send (get_account_balance account_id base_url (Some hdrs) timeout) w
  = (Ok None, w', [req]).
Proof.
  intros Hsend Hok. unfold get_account_balance, requests_get. rewrite or_empty_Some.
  cbn [bind try_except run].
  fold (balance_request account_id base_url hdrs timeout). fold req.
  rewrite Hsend. cbn [bind]. rewrite (raise_for_status_error _ Hok). reflexivity.
Qed.

(** An object whose [balance] field holds [null], a list or an object makes
    [float] raise [TypeError], which no [except] clause catches. *)
Lemma get_account_balance_type_error (w w' : World) (r : response) (d : dict) (v : value) :
  send req w = (Replied r, w') -> status_ok r = true ->
  json_body r = Some (VDict d) -> lookup "balance" d = Some v ->
  py_float v = Raise TypeError ->
  run send (get_account_balance account_id base_url (Some hdrs) timeout) w
  = (Raised TypeError, w', [req]).
Proof.
  intros Hsend Hok Hjson Hbal Hv. balance_reply_step Hsend Hok.
  rewrite Hjson. cbn [bind is_dict dict_contains andb subscript].
  rewrite Hbal. cbn [bind]. rewrite Hv. reflexivity.
Qed.

(** C10. A reply that passes [raise_for_status] and whose JSON body is the
    boolean [true] or [false] takes the bare-number branch: the balance is
    1.0 or 0.0, not [None]. *)
Theorem get_account_balance_boolean (w w' : World) (r : response) (b : bool) :
  send req w = (Replied r, w') -> status_ok r = true ->
  json_body r = Some (VBool b) ->
  is_int_or_float (VBool b) = true
  /\ run send (get_account_balance account_id base_url (Some hdrs) timeout) w
     = (Ok (Some (if b then f1 else f0)), w', [req]).
Proof.
  intros Hsend Hok Hjson. split; [reflexivity |].
  balance_reply_step Hsend Hok.
  rewrite Hjson. destruct b; reflexivity.
Qed.

End Balance.

Lemma get_account_balance_boolean_witness :
  run scripted (get_account_balance "ACC1000" "http://example" (Some []) f1)
      [Replied (json_response 200 (VBool true))]
  = (Ok (Some f1), [], [balance_request "ACC1000" "http://example" [] f1]).
Proof.
  apply (get_account_balance_boolean scripted "ACC1000" "http://example" [] f1
           [Replied (json_response 200 (VBool true))] []
           (json_response 200 (VBool true)) true);
    reflexivity.
Defined.

(** The three accepted shapes of the balance body all give 1000.0. *)
Lemma get_account_balance_three_shapes :
  run scripted (get_account_balance "ACC1000" "http://example" (Some []) f1)
      [Replied (json_response 200 (VDict [("balance", VFloat f1000)]))]
  = (Ok (Some f1000), [], [balance_request "ACC1000" "http://example" [] f1])
  /\ run scripted (get_account_balance "ACC1000" "http://example" (Some []) f1)
         [Replied (json_response 200 (VFloat f1000))]
     = (Ok (Some f1000), [], [balance_request "ACC1000" "http://example" [] f1])
  /\ run scripted (get_account_balance "ACC1000" "http://example" (Some []) f1)
         [Replied (mkResponse 200 [("Content-Type", "text/plain")] None "1000.0")]
     = (Ok (Some f1000), [], [balance_request "ACC1000" "http://example" [] f1]).
Proof.
  split; [| split].
  - eapply (get_account_balance_object scripted "ACC1000" "http://example" [] f1
             _ [] _ [("balance", VFloat f1000)] f1000); reflexivity.
  - eapply (get_account_balance_number scripted "ACC1000" "http://example" [] f1
             _ [] _ f1000); reflexivity.
  - eapply (get_account_balance_text scripted "ACC1000" "http://example" [] f1
             _ [] _ f1000); reflexivity.
Qed.

(** C4, at the input where it fails: a 200 reply with the JSON body
    [{"balance": null}] is of none of the three shapes that parse, and
    [get_account_balance] does not return [None] there: [TypeError]
    escapes. *)
Theorem get_account_balance_null_balance_raises :
  run scripted (get_account_balance "ACC1000" "http://example" (Some []) f1)
      [Replied (json_response 200 (VDict [("balance", VNone)]))]
  = (Raised TypeError, [], [balance_request "ACC1000" "http://example" [] f1]).
Proof.
  eapply (get_account_balance_type_error scripted "ACC1000" "http://example" [] f1
           _ [] _ [("balance", VNone)] VNone); reflexivity.
Qed.

(** An integer balance beyond the doubles escapes as [OverflowError]. *)
Lemma get_account_balance_huge_integer_raises :
  run scripted (get_account_balance "ACC1000" "http://example" (Some []) f1)
      [Replied (json_response 200 (VInt (10 ^ 400)))]
  = (Raised OverflowError, [], [balance_request "ACC1000" "http://example" [] f1]).
Proof. vm_compute. reflexivity. Qed.

(** C6, at the input where it fails: with both accounts valid and the
    balance body [{"balance": null}], [transfer_money] returns none of its
    three shapes: the [TypeError] of [get_account_balance] reaches the
    caller, after the three GETs. *)
Theorem transfer_money_null_balance_raises :
  run scripted (transfer_money "ACC1000" "ACC1001" f100 (Some "http://example") f1 None)
      [Replied ok_empty; Replied ok_empty;
       Replied (json_response 200 (VDict [("balance", VNone)]))]
  = (Raised TypeError, [],
     [validate_request "ACC1000" "http://example" [] f1;
      validate_request "ACC1001" "http://example" [] f1;
      balance_request "ACC1000" "http://example" [] f1]).
Proof.
  rewrite run_transfer_money. cbv zeta.
  change (base_endpoint (Some "http://example")) with "http://example".
  change (auth_headers None) with (@nil (string * string)).
  cbn [scripted is_200 ok_empty json_response status_code Z.eqb Pos.eqb negb].
  rewrite (get_account_balance_type_error scripted "ACC1000" "http://example" [] f1
             [Replied (json_response 200 (VDict [("balance", VNone)]))] []
             (json_response 200 (VDict [("balance", VNone)]))
             [("balance", VNone)] VNone);
    reflexivity.
Qed.

(** Against a transport that answers or raises [RequestException],
    [transfer_money] returns whenever [get_account_balance] does. *)
Lemma transfer_money_returns_unless_balance_raises
    (World : Type) (send : request -> World -> outcome * World)
    (from_acc to_acc : string) (amount : float) (endpoint : option string)
    (timeout : float) (auth_token : option string) (w0 : World) :
  (forall (w : World) (e : exn),
      returned (run send (get_account_balance from_acc (base_endpoint endpoint)
                            (Some (auth_headers auth_token)) timeout) w) <> Raised e) ->
  exists v : value,
    returned (run send (transfer_money from_acc to_acc amount endpoint timeout
                          auth_token) w0) = Ok v.
Proof.
  intros Hbal. rewrite run_transfer_money. cbv zeta.
  destruct (send _ w0) as [o1 w1].
  destruct (is_200 o1); cbn [negb]; [| eexists; reflexivity].
  destruct (send _ w1) as [o2 w2].
  destruct (is_200 o2); cbn [negb]; [| eexists; reflexivity].
  specialize (Hbal w2).
  destruct (run send (get_account_balance _ _ _ _) w2) as [[[[b |] | e] w3] t3].
  - destruct (Float.gt amount b); [eexists; reflexivity |].
    rewrite run_submit_transfer. eexists; reflexivity.
  - eexists; reflexivity.
  - exfalso. apply (Hbal e). reflexivity.
Qed.

(** ** Auth token retrieval *)

Section Auth.

Context {World : Type} (send : request -> World -> outcome * World).
Variables (base_url username password claim : string) (timeout : float).

Let req := auth_request base_url username password claim timeout.

Ltac auth_reply_step Hsend Hok :=
  unfold get_auth_token, requests_post; cbn [bind try_except run];
  fold (auth_request base_url username password claim timeout); fold req;
  rewrite Hsend; cbn [bind];
  rewrite (raise_for_status_ok _ Hok); cbn [bind]; unfold resp_json.





(** A JSON body that is no object has no [get]: [AttributeError] escapes. *)
Lemma get_auth_token_not_an_object (w w' : World) (r : response) (v : value) :
  send req w = (Replied r, w') -> status_ok r = true ->
  json_body r = Some v -> is_dict v = false ->
  run send (get_auth_token base_url username password claim timeout) w
  = (Raised AttributeError, w', [req]).
Proof.
  intros Hsend Hok Hjson Hv. auth_reply_step Hsend Hok.
  rewrite Hjson. destruct v; try discriminate; reflexivity.
Qed.


End Auth.




(** ** More on the orchestrator *)

Section Protocol.

Context {World : Type} (send : request -> World -> outcome * World).
Variables (from_acc to_acc : string) (amount : float) (endpoint : option string)
          (timeout : float) (auth_token : option string).

Let src := validate_request from_acc (base_endpoint endpoint) (auth_headers auth_token) timeout.
Let dst := validate_request to_acc (base_endpoint endpoint) (auth_headers auth_token) timeout.
Let bal := balance_request from_acc (base_endpoint endpoint) (auth_headers auth_token) timeout.
Let post := transfer_request from_acc to_acc amount endpoint timeout auth_token.

(** Once both accounts are valid and the balance [b] is known, with
    [amount > b] false, the POST is issued and its outcome decides. *)
Lemma run_transfer_money_submitted (w0 w1 w2 w3 : World) (r1 r2 : response)
    (b : float) (t3 : list request) :
  send src w0 = (Replied r1, w1) -> status_code r1 = 200%Z ->
  send dst w1 = (Replied r2, w2) -> status_code r2 = 200%Z ->
  run send (get_account_balance from_acc (base_endpoint endpoint)
              (Some (auth_headers auth_token)) timeout) w2
    = (Ok (Some b), w3, t3) ->
  Float.gt amount b = false ->
  run send (transfer_money from_acc to_acc amount endpoint timeout auth_token) w0
  = (Ok (transfer_result (fst (send post w3))), snd (send post w3), [src; dst; bal; post]).
Proof.
  intros H1 S1 H2 S2 H3 Hgt.
  assert (Ht3 : t3 = [bal]).
  { pose proof (get_account_balance_trace send from_acc (base_endpoint endpoint)
                  (auth_headers auth_token) timeout w2) as Ht.
    rewrite H3 in Ht. exact Ht. }
  rewrite run_transfer_money. cbv zeta. fold src dst.
  rewrite H1. cbn [is_200 negb]. rewrite S1. cbn [Z.eqb Pos.eqb negb].
  rewrite H2. cbn [is_200 negb]. rewrite S2. cbn [Z.eqb Pos.eqb negb].
  rewrite H3, Hgt, run_submit_transfer, Ht3. reflexivity.
Qed.

(** X1. Whatever the service answers, [transfer_money] issues its calls
    in one fixed order and stops at the first that fails: the requests
    made are the source validation alone, or followed by the destination
    validation, or then by the balance GET, or then by the transfer POST. *)
Theorem transfer_money_call_order (w : World) :
  let t := trace (run send (transfer_money from_acc to_acc amount endpoint timeout
                              auth_token) w) in
  t = [src] \/ t = [src; dst] \/ t = [src; dst; bal] \/ t = [src; dst; bal; post].
Proof.
  cbv zeta. rewrite run_transfer_money. cbv zeta. fold src dst.
  destruct (send src w) as [o1 w1].
  destruct (is_200 o1); cbn [negb]; [| left; reflexivity].
  destruct (send dst w1) as [o2 w2].
  destruct (is_200 o2); cbn [negb]; [| right; left; reflexivity].
  pose proof (get_account_balance_trace send from_acc (base_endpoint endpoint)
                (auth_headers auth_token) timeout w2) as Ht.
  destruct (run send (get_account_balance _ _ _ _) w2) as [[[[b |] | e] w3] t3];
    unfold trace in Ht; cbn [snd] in Ht; subst t3; fold bal.
  - destruct (Float.gt amount b); [right; right; left; reflexivity |].
    rewrite run_submit_transfer. right; right; right. reflexivity.
  - right; right; left; reflexivity.
  - right; right; left; reflexivity.
Qed.

(** X2. After a successful balance check, a POST reply that passes
    [raise_for_status] and whose Content-Type does not contain
    [application/json] is returned as [{"text": body}], the body being the
    raw text of the reply. *)
Theorem transfer_money_text_payload (w0 w1 w2 w3 w4 : World) (r1 r2 r4 : response)
    (b : float) (t3 : list request) :
  send src w0 = (Replied r1, w1) -> status_code r1 = 200%Z ->
  send dst w1 = (Replied r2, w2) -> status_code r2 = 200%Z ->
  run send (get_account_balance from_acc (base_endpoint endpoint)
              (Some (auth_headers auth_token)) timeout) w2
    = (Ok (Some b), w3, t3) ->
  Float.gt amount b = false ->
  send post w3 = (Replied r4, w4) -> status_ok r4 = true ->
  Str.contains "application/json" (headers_get (headers r4) "Content-Type" "") = false ->
  run send (transfer_money from_acc to_acc amount endpoint timeout auth_token) w0
  = (Ok (VDict [("text", VStr (text r4))]), w4, [src; dst; bal; post]).
Proof.
  intros H1 S1 H2 S2 H3 Hgt H4 S4 Hct.
  rewrite (run_transfer_money_submitted w0 w1 w2 w3 r1 r2 b t3 H1 S1 H2 S2 H3 Hgt).
  rewrite H4. cbn [fst snd transfer_result]. rewrite S4, Hct. reflexivity.
Qed.


(** X4. When both accounts are valid and [get_account_balance] returns
    [None], [transfer_money] returns [None] after the three GETs: no POST
    is issued. *)
Theorem transfer_money_balance_unavailable (w0 w1 w2 w3 : World) (r1 r2 : response)
    (t3 : list request) :
  send src w0 = (Replied r1, w1) -> status_code r1 = 200%Z ->
  send dst w1 = (Replied r2, w2) -> status_code r2 = 200%Z ->
  run send (get_account_balance from_acc (base_endpoint endpoint)
              (Some (auth_headers auth_token)) timeout) w2
    = (Ok None, w3, t3) ->
  run send (transfer_money from_acc to_acc amount endpoint timeout auth_token) w0
  = (Ok VNone, w3, [src; dst; bal]).
Proof.
  intros H1 S1 H2 S2 H3.
  assert (Ht3 : t3 = [bal]).
  { pose proof (get_account_balance_trace send from_acc (base_endpoint endpoint)
                  (auth_headers auth_token) timeout w2) as Ht.
    rewrite H3 in Ht. exact Ht. }
  rewrite run_transfer_money. cbv zeta. fold src dst.
  rewrite H1. cbn [is_200 negb]. rewrite S1. cbn [Z.eqb Pos.eqb negb].
  rewrite H2. cbn [is_200 negb]. rewrite S2. cbn [Z.eqb Pos.eqb negb].
  rewrite H3, Ht3. reflexivity.
Qed.

(** X5. A NaN never counts as insufficient funds: when both accounts are
    valid and the balance fetched is NaN, or the amount is NaN, the
    transfer POST is issued. *)
Theorem transfer_money_nan_is_submitted (w0 w1 w2 w3 : World) (r1 r2 : response)
    (b : float) (t3 : list request) :
  send src w0 = (Replied r1, w1) -> status_code r1 = 200%Z ->
  send dst w1 = (Replied r2, w2) -> status_code r2 = 200%Z ->
  run send (get_account_balance from_acc (base_endpoint endpoint)
              (Some (auth_headers auth_token)) timeout) w2
    = (Ok (Some b), w3, t3) ->
  b = S754_nan \/ amount = S754_nan ->
  trace (run send (transfer_money from_acc to_acc amount endpoint timeout auth_token) w0)
  = [src; dst; bal; post].
Proof.
  intros H1 S1 H2 S2 H3 Hnan.
  rewrite (run_transfer_money_submitted w0 w1 w2 w3 r1 r2 b t3 H1 S1 H2 S2 H3).
  - reflexivity.
  - destruct Hnan as [-> | ->]; [destruct amount | destruct b]; reflexivity.
Qed.

(** X6. [transfer_money] never issues a POST unless both validations were
    answered with status 200, the balance fetch yielded a balance, and
    [amount > balance] was false; the POST then comes last, after the
    three GETs. *)
Theorem transfer_money_post_only_after_checks (w0 : World) :
  Exists (fun r => req_method r = POST)
         (trace (run send (transfer_money from_acc to_acc amount endpoint timeout
                             auth_token) w0)) ->
  reaches_submission send from_acc to_acc amount endpoint timeout auth_token w0
  /\ trace (run send (transfer_money from_acc to_acc amount endpoint timeout
                         auth_token) w0)
     = [src; dst; bal; post].
Proof.
  unfold reaches_submission. rewrite run_transfer_money. cbv zeta. fold src dst.
  destruct (send src w0) as [o1 w1] eqn:H1.
  destruct o1 as [| r1]; cbn [is_200 negb].
  { unfold trace; cbn [snd]. intros H. inversion H as [? ? Hm | ? ? Ht]; [discriminate Hm |].
    inversion Ht. }
  destruct (status_code r1 =? 200)%Z eqn:S1; cbn [negb].
  2: { unfold trace; cbn [snd]. intros H.
       inversion H as [? ? Hm | ? ? Ht]; [discriminate Hm | inversion Ht]. }
  destruct (send dst w1) as [o2 w2] eqn:H2.
  assert (Hno2 : ~ Exists (fun r => req_method r = POST) [src; dst]).
  { intros H. inversion H as [? ? Hm | ? ? Ht]; [discriminate Hm |].
    inversion Ht as [? ? Hm | ? ? Ht']; [discriminate Hm | inversion Ht']. }
  destruct o2 as [| r2]; cbn [is_200 negb].
  { unfold trace; cbn [snd]. intros H. destruct (Hno2 H). }
  destruct (status_code r2 =? 200)%Z eqn:S2; cbn [negb].
  2: { unfold trace; cbn [snd]. intros H. destruct (Hno2 H). }
  pose proof (get_account_balance_trace send from_acc (base_endpoint endpoint)
                (auth_headers auth_token) timeout w2) as Ht.
  destruct (run send (get_account_balance _ _ _ _) w2) as [[res w3] t3] eqn:H3.
  unfold trace in Ht; cbn [snd] in Ht. subst t3. fold bal.
  assert (Hno3 : ~ Exists (fun r => req_method r = POST) [src; dst; bal]).
  { intros H. inversion H as [? ? Hm | ? ? Ht]; [discriminate Hm |].
    inversion Ht as [? ? Hm | ? ? Ht']; [discriminate Hm |].
    inversion Ht' as [? ? Hm | ? ? Ht'']; [discriminate Hm | inversion Ht'']. }
  destruct res as [[b |] | e].
  - destruct (Float.gt amount b) eqn:Hgt.
    + unfold trace; cbn [snd]. intros H. destruct (Hno3 H).
    + rewrite run_submit_transfer. fold post. intros _. split; [| reflexivity].
      exists r1, r2, w1, w2, w3, b, [bal].
      apply Z.eqb_eq in S1. apply Z.eqb_eq in S2. repeat split; auto.
  - unfold trace; cbn [snd]. intros H. destruct (Hno3 H).
  - unfold trace; cbn [snd]. intros H. destruct (Hno3 H).
Qed.

End Protocol.

(** Where the POST goes, once the submission is reached. *)
Lemma transfer_money_posts_to {World : Type} (send : request -> World -> outcome * World)
    (from_acc to_acc : string) (amount : float) (e : string) (timeout : float)
    (auth_token : option string) (w0 : World) :
  reaches_submission send from_acc to_acc amount (Some e) timeout auth_token w0 ->
  trace (run send (transfer_money from_acc to_acc amount (Some e) timeout auth_token) w0)
  = [validate_request from_acc (base_endpoint (Some e)) (auth_headers auth_token) timeout;
     validate_request to_acc (base_endpoint (Some e)) (auth_headers auth_token) timeout;
     balance_request from_acc (base_endpoint (Some e)) (auth_headers auth_token) timeout;
     mkRequest POST (post_url e)
       (Some (VDict [("fromAccount", VStr from_acc); ("toAccount", VStr to_acc);
                     ("amount", VFloat amount)]))
       (or_none (auth_headers auth_token)) timeout].
Proof.
  intros [r1 [r2 [w1 [w2 [w3 [b [t3 [H1 [S1 [H2 [S2 [H3 Hgt]]]]]]]]]]]].
  rewrite (run_transfer_money_submitted send from_acc to_acc amount (Some e) timeout
             auth_token w0 w1 w2 w3 r1 r2 b t3 H1 S1 H2 S2 H3 Hgt).
  reflexivity.
Qed.

(** The scripted service of the successful scenario reaches the submission,
    whatever the endpoint. *)
Lemma scripted_reaches_submission (e : string) (last : outcome) :
  reaches_submission scripted "ACC1000" "ACC1001" f100 (Some e) f1 None
    [Replied ok_empty; Replied ok_empty; Replied (balance_reply f1000); last].
Proof.
  exists ok_empty, ok_empty,
    [Replied ok_empty; Replied (balance_reply f1000); last],
    [Replied (balance_reply f1000); last], [last], f1000,
    [balance_request "ACC1000" (base_endpoint (Some e)) [] f1].
  repeat split; reflexivity.
Qed.

(** C5. The base [http://example] is posted to [http://example/transfer]
    and a base that already ends in [/transfer] is posted to unchanged:
    this is what [post_url] gives, it is where every POST of
    [transfer_money] goes, and when the submission is reached the POST to
    that URL is issued, as the fourth and last request. *)
Theorem transfer_url_construction :
  post_url "http://example" = "http://example/transfer"
  /\ (forall e : string, Str.endswith e "/transfer" = true -> post_url e = e)
  /\ (forall (World : Type) (send : request -> World -> outcome * World)
        (from_acc to_acc : string) (amount : float) (e : string) (timeout : float)
        (auth_token : option string) (w : World),
         Forall (fun r => req_method r = POST -> req_url r = post_url e)
                (trace (run send (transfer_money from_acc to_acc amount (Some e) timeout
                                    auth_token) w)))
  /\ (forall (World : Type) (send : request -> World -> outcome * World)
        (from_acc to_acc : string) (amount : float) (timeout : float)
        (auth_token : option string) (w0 : World),
         reaches_submission send from_acc to_acc amount (Some "http://example") timeout
           auth_token w0 ->
         trace (run send (transfer_money from_acc to_acc amount (Some "http://example")
                            timeout auth_token) w0)
         = [validate_request from_acc "http://example" (auth_headers auth_token) timeout;
            validate_request to_acc "http://example" (auth_headers auth_token) timeout;
            balance_request from_acc "http://example" (auth_headers auth_token) timeout;
            mkRequest POST "http://example/transfer"
              (Some (VDict [("fromAccount", VStr from_acc); ("toAccount", VStr to_acc);
                            ("amount", VFloat amount)]))
              (or_none (auth_headers auth_token)) timeout])
  /\ (forall (World : Type) (send : request -> World -> outcome * World)
        (from_acc to_acc : string) (amount : float) (e : string) (timeout : float)
        (auth_token : option string) (w0 : World),
         Str.endswith e "/transfer" = true ->
         reaches_submission send from_acc to_acc amount (Some e) timeout auth_token w0 ->
         trace (run send (transfer_money from_acc to_acc amount (Some e) timeout
                            auth_token) w0)
         = [validate_request from_acc (base_endpoint (Some e)) (auth_headers auth_token)
              timeout;
            validate_request to_acc (base_endpoint (Some e)) (auth_headers auth_token)
              timeout;
            balance_request from_acc (base_endpoint (Some e)) (auth_headers auth_token)
              timeout;
            mkRequest POST e
              (Some (VDict [("fromAccount", VStr from_acc); ("toAccount", VStr to_acc);
                            ("amount", VFloat amount)]))
              (or_none (auth_headers auth_token)) timeout]).
Proof.
  split; [reflexivity |]. split; [exact post_url_suffixed |]. split; [| split].
  - intros World send from_acc to_acc amount e timeout auth_token w.
    apply (transfer_money_post_url send from_acc to_acc amount (Some e) timeout auth_token w).
  - intros World send from_acc to_acc amount timeout auth_token w0 Hsub.
    exact (transfer_money_posts_to send from_acc to_acc amount "http://example" timeout
             auth_token w0 Hsub).
  - intros World send from_acc to_acc amount e timeout auth_token w0 He Hsub.
    rewrite (transfer_money_posts_to send from_acc to_acc amount e timeout auth_token w0
               Hsub).
    rewrite (post_url_suffixed e He). reflexivity.
Qed.

Lemma transfer_url_construction_witness :
  trace (run scripted
           (transfer_money "ACC1000" "ACC1001" f100 (Some "http://example") f1 None)
           [Replied ok_empty; Replied ok_empty; Replied (balance_reply f1000);
            Replied (json_response 200 tx123)])
  = [validate_request "ACC1000" "http://example" [] f1;
     validate_request "ACC1001" "http://example" [] f1;
     balance_request "ACC1000" "http://example" [] f1;
     mkRequest POST "http://example/transfer"
       (Some (VDict [("fromAccount", VStr "ACC1000"); ("toAccount", VStr "ACC1001");
                     ("amount", VFloat f100)]))
       None f1]
  /\ trace (run scripted
              (transfer_money "ACC1000" "ACC1001" f100 (Some "http://bank/api/transfer")
                 f1 None)
              [Replied ok_empty; Replied ok_empty; Replied (balance_reply f1000);
               Replied (json_response 200 tx123)])
     = [validate_request "ACC1000" "http://bank/api/transfer" [] f1;
        validate_request "ACC1001" "http://bank/api/transfer" [] f1;
        balance_request "ACC1000" "http://bank/api/transfer" [] f1;
        mkRequest POST "http://bank/api/transfer"
          (Some (VDict [("fromAccount", VStr "ACC1000"); ("toAccount", VStr "ACC1001");
                        ("amount", VFloat f100)]))
          None f1].
Proof.
  split.
  - apply (proj1 (proj2 (proj2 (proj2 transfer_url_construction)))
             (list outcome) scripted "ACC1000" "ACC1001" f100 f1 None).
    apply scripted_reaches_submission.
  - apply (proj2 (proj2 (proj2 (proj2 transfer_url_construction)))
             (list outcome) scripted "ACC1000" "ACC1001" f100 "http://bank/api/transfer"
             f1 None);
      [reflexivity | apply scripted_reaches_submission].
Defined.



Lemma transfer_money_post_only_after_checks_witness :
  trace (run scripted
           (transfer_money "ACC1000" "ACC1001" f100 (Some "http://example") f1 None)
           [Replied ok_empty; Replied ok_empty; Replied (balance_reply f1000); Failed])
  = [validate_request "ACC1000" "http://example" [] f1;
     validate_request "ACC1001" "http://example" [] f1;
     balance_request "ACC1000" "http://example" [] f1;
     transfer_request "ACC1000" "ACC1001" f100 (Some "http://example") f1 None].
Proof.
  apply (transfer_money_post_only_after_checks scripted "ACC1000" "ACC1001" f100
           (Some "http://example") f1 None
           [Replied ok_empty; Replied ok_empty; Replied (balance_reply f1000); Failed]).
  do 3 apply Exists_cons_tl. apply Exists_cons_hd. reflexivity.
Defined.

Lemma transfer_money_text_payload_witness :
  run scripted (transfer_money "ACC1000" "ACC1001" f100 (Some "http://example") f1 None)
      [Replied ok_empty; Replied ok_empty; Replied (balance_reply f1000);
       Replied (mkResponse 200 [("Content-Type", "text/plain")] None "done")]
  = (Ok (VDict [("text", VStr "done")]), [],
     [validate_request "ACC1000" "http://example" [] f1;
      validate_request "ACC1001" "http://example" [] f1;
      balance_request "ACC1000" "http://example" [] f1;
      transfer_request "ACC1000" "ACC1001" f100 (Some "http://example") f1 None]).
Proof.
  apply (transfer_money_text_payload scripted "ACC1000" "ACC1001" f100
           (Some "http://example") f1 None
           [Replied ok_empty; Replied ok_empty; Replied (balance_reply f1000);
            Replied (mkResponse 200 [("Content-Type", "text/plain")] None "done")]
           [Replied ok_empty; Replied (balance_reply f1000);
            Replied (mkResponse 200 [("Content-Type", "text/plain")] None "done")]
           [Replied (balance_reply f1000);
            Replied (mkResponse 200 [("Content-Type", "text/plain")] None "done")]
           [Replied (mkResponse 200 [("Content-Type", "text/plain")] None "done")] []
           ok_empty ok_empty (mkResponse 200 [("Content-Type", "text/plain")] None "done")
           f1000 [balance_request "ACC1000" "http://example" [] f1]);
    reflexivity.
Defined.


Lemma transfer_money_balance_unavailable_witness :
  run scripted (transfer_money "ACC1000" "ACC1001" f100 (Some "http://example") f1 None)
      [Replied ok_empty; Replied ok_empty; Replied (json_response 500 (VDict []))]
  = (Ok VNone, [],
     [validate_request "ACC1000" "http://example" [] f1;
      validate_request "ACC1001" "http://example" [] f1;
      balance_request "ACC1000" "http://example" [] f1]).
Proof.
  apply (transfer_money_balance_unavailable scripted "ACC1000" "ACC1001" f100
           (Some "http://example") f1 None
           [Replied ok_empty; Replied ok_empty; Replied (json_response 500 (VDict []))]
           [Replied ok_empty; Replied (json_response 500 (VDict []))]
           [Replied (json_response 500 (VDict []))] []
           ok_empty ok_empty [balance_request "ACC1000" "http://example" [] f1]);
    reflexivity.
Defined.

Lemma transfer_money_nan_is_submitted_witness :
  trace (run scripted
           (transfer_money "ACC1000" "ACC1001" f100 (Some "http://example") f1 None)
           [Replied ok_empty; Replied ok_empty;
            Replied (mkResponse 200 [] None "nan"); Replied (json_response 200 tx123)])
  = [validate_request "ACC1000" "http://example" [] f1;
     validate_request "ACC1001" "http://example" [] f1;
     balance_request "ACC1000" "http://example" [] f1;
     transfer_request "ACC1000" "ACC1001" f100 (Some "http://example") f1 None].
Proof.
  apply (transfer_money_nan_is_submitted scripted "ACC1000" "ACC1001" f100
           (Some "http://example") f1 None
           [Replied ok_empty; Replied ok_empty;
            Replied (mkResponse 200 [] None "nan"); Replied (json_response 200 tx123)]
           [Replied ok_empty; Replied (mkResponse 200 [] None "nan");
            Replied (json_response 200 tx123)]
           [Replied (mkResponse 200 [] None "nan"); Replied (json_response 200 tx123)]
           [Replied (json_response 200 tx123)]
           ok_empty ok_empty S754_nan [balance_request "ACC1000" "http://example" [] f1]);
    try reflexivity.
  left; reflexivity.
Defined.



(** X8. Trailing slashes of the base URL never matter to the three
    sub-routines: with one more slash at the end of [base_url],
    [validate_account], [get_account_balance] and [get_auth_token] are the
    same programs, issuing the same request. *)
Theorem base_url_trailing_slash (base_url : string) :
  (forall account_id hdrs timeout,
      validate_account account_id (base_url ++ "/") hdrs timeout
      = validate_account account_id base_url hdrs timeout)
  /\ (forall account_id hdrs timeout,
         get_account_balance account_id (base_url ++ "/") hdrs timeout
         = get_account_balance account_id base_url hdrs timeout)
  /\ (forall username password claim timeout,
         get_auth_token (base_url ++ "/") username password claim timeout
         = get_auth_token base_url username password claim timeout).
Proof.
  split; [| split]; intros.
  - unfold validate_account. rewrite StrFacts.rstrip_app_char. reflexivity.
  - unfold get_account_balance. rewrite StrFacts.rstrip_app_char. reflexivity.
  - unfold get_auth_token. rewrite StrFacts.rstrip_app_char. reflexivity.
Qed.

(** ** More on balance parsing and the auth token *)

Section BalanceEdges.

Context {World : Type} (send : request -> World -> outcome * World).
Variables (account_id base_url : string) (hdrs : list (string * string)) (timeout : float).

Let req := balance_request account_id base_url hdrs timeout.

Ltac balance_step Hsend Hok :=
  unfold get_account_balance, requests_get; rewrite or_empty_Some;
  cbn [bind try_except run];
  fold (balance_request account_id base_url hdrs timeout); fold req;
  rewrite Hsend; cbn [bind];
  rewrite (raise_for_status_ok _ Hok); cbn [bind]; unfold resp_json.

(** X9. Whatever the service answers, [get_account_balance] issues exactly
    one request: a GET of [{base}/accounts/balance/{id}], the base without
    its trailing slashes, with the headers it was given. *)
Theorem get_account_balance_one_request (w : World) :
  trace (run send (get_account_balance account_id base_url (Some hdrs) timeout) w) = [req]
  /\ req_method req = GET
  /\ req_url req = Str.rstrip "/" base_url ++ "/accounts/balance/" ++ account_id
  /\ req_headers req = Some hdrs.
Proof.
  split; [apply get_account_balance_trace |]. repeat split.
Qed.

(** X10. A reply that passes [raise_for_status] with a JSON body that is
    an object without a [balance] key, or [null], a string or a list,
    gives [None]: a missing key raises nothing. *)
Theorem get_account_balance_missing_key (w w' : World) (r : response) (v : value) :
  send req w = (Replied r, w') -> status_ok r = true ->
  json_body r = Some v ->
  (exists d, v = VDict d /\ lookup "balance" d = None)
  \/ v = VNone \/ (exists s, v = VStr s) \/ (exists l, v = VList l) ->
  run send (get_account_balance account_id base_url (Some hdrs) timeout) w
  = (Ok None, w', [req]).
Proof.
  intros Hsend Hok Hjson Hv. balance_step Hsend Hok. rewrite Hjson. cbn [bind].
  destruct Hv as [[d [-> Hd]] | [-> | [[s ->] | [l ->]]]];
    cbn [is_dict dict_contains is_int_or_float andb]; try rewrite Hd; reflexivity.
Qed.

(** X11. A [balance] field that holds a string is parsed as a number:
    [{"balance": "250.5"}] gives 250.5. *)
Theorem get_account_balance_string_field (w w' : World) (r : response) (d : dict)
    (s : string) (f : float) :
  send req w = (Replied r, w') -> status_ok r = true ->
  json_body r = Some (VDict d) -> lookup "balance" d = Some (VStr s) ->
  Float.of_string s = Some f ->
  run send (get_account_balance account_id base_url (Some hdrs) timeout) w
  = (Ok (Some f), w', [req]).
Proof.
  intros Hsend Hok Hjson Hd Hs. balance_step Hsend Hok. rewrite Hjson.
  cbn [bind is_dict dict_contains andb subscript]. rewrite Hd.
  cbn [bind py_float]. rewrite Hs. reflexivity.
Qed.

(** X12. A [balance] field that holds an ASCII string which is no number
    raises nothing: the [ValueError] of [float] is taken by the handler
    meant for a body that is not JSON, and the result is the raw text of
    the reply (ASCII as well) read as a number, or [None] when that is no
    number either. *)
Theorem get_account_balance_bad_string_field (w w' : World) (r : response) (d : dict)
    (s : string) :
  send req w = (Replied r, w') -> status_ok r = true ->
  json_body r = Some (VDict d) -> lookup "balance" d = Some (VStr s) ->
  Str.is_ascii s = true -> Str.is_ascii (text r) = true ->
  Float.of_string s = None ->
  run send (get_account_balance account_id base_url (Some hdrs) timeout) w
  = (Ok (Float.of_string (Str.strip (text r))), w', [req]).
Proof.
  intros Hsend Hok Hjson Hd _ _ Hs. balance_step Hsend Hok. rewrite Hjson.
  cbn [bind is_dict dict_contains andb subscript]. rewrite Hd.
  cbn [bind py_float]. rewrite Hs. cbn [bind try_except is_ValueError py_float].
  destruct (Float.of_string (Str.strip (text r))); reflexivity.
Qed.

(** X13. An integer balance, bare or in the [balance] field, is converted
    to the nearest double when that is finite, and makes
    [get_account_balance] raise [OverflowError] when the integer is beyond
    the doubles. *)
Theorem get_account_balance_integer (w w' : World) (r : response) (z : Z) :
  send req w = (Replied r, w') -> status_ok r = true ->
  json_body r = Some (VInt z)
  \/ (exists d, json_body r = Some (VDict d) /\ lookup "balance" d = Some (VInt z)) ->
  run send (get_account_balance account_id base_url (Some hdrs) timeout) w
  = (if Float.is_infinite (Float.of_Z z)
     then Raised OverflowError
     else Ok (Some (Float.of_Z z)),
     w', [req]).
Proof.
  intros Hsend Hok Hjson. balance_step Hsend Hok.
  destruct Hjson as [-> | [d [-> Hd]]].
  - cbn [bind is_dict dict_contains is_int_or_float andb py_float].
    destruct (Float.is_infinite (Float.of_Z z)); reflexivity.
  - cbn [bind is_dict dict_contains andb subscript]. rewrite Hd. cbn [bind py_float].
    destruct (Float.is_infinite (Float.of_Z z)); reflexivity.
Qed.

End BalanceEdges.

Lemma get_account_balance_missing_key_witness :
  run scripted (get_account_balance "ACC1000" "http://example" (Some []) f1)
      [Replied (json_response 200 (VDict [("id", VStr "ACC1000")]))]
  = (Ok None, [], [balance_request "ACC1000" "http://example" [] f1]).
Proof.
  apply (get_account_balance_missing_key scripted "ACC1000" "http://example" [] f1
           [Replied (json_response 200 (VDict [("id", VStr "ACC1000")]))] []
           (json_response 200 (VDict [("id", VStr "ACC1000")]))
           (VDict [("id", VStr "ACC1000")]));
    try reflexivity.
  left. exists [("id", VStr "ACC1000")]. split; reflexivity.
Defined.

Lemma get_account_balance_string_field_witness :
  run scripted (get_account_balance "ACC1000" "http://example" (Some []) f1)
      [Replied (json_response 200 (VDict [("balance", VStr "1e3")]))]
  = (Ok (Some f1000), [], [balance_request "ACC1000" "http://example" [] f1]).
Proof.
  apply (get_account_balance_string_field scripted "ACC1000" "http://example" [] f1
           [Replied (json_response 200 (VDict [("balance", VStr "1e3")]))] []
           (json_response 200 (VDict [("balance", VStr "1e3")]))
           [("balance", VStr "1e3")] "1e3" f1000);
    reflexivity.
Defined.

Lemma get_account_balance_bad_string_field_witness :
  run scripted (get_account_balance "ACC1000" "http://example" (Some []) f1)
      [Replied (mkResponse 200 [] (Some (VDict [("balance", VStr "n/a")]))
                           "balance: n/a")]
  = (Ok None, [], [balance_request "ACC1000" "http://example" [] f1]).
Proof.
  apply (get_account_balance_bad_string_field scripted "ACC1000" "http://example" [] f1
           [Replied (mkResponse 200 [] (Some (VDict [("balance", VStr "n/a")]))
                                "balance: n/a")] []
           (mkResponse 200 [] (Some (VDict [("balance", VStr "n/a")]))
                       "balance: n/a")
           [("balance", VStr "n/a")] "n/a");
    reflexivity.
Defined.

Lemma get_account_balance_integer_witness :
  run scripted (get_account_balance "ACC1000" "http://example" (Some []) f1)
      [Replied (json_response 200 (VDict [("balance", VInt 1000)]))]
  = (Ok (Some f1000), [], [balance_request "ACC1000" "http://example" [] f1]).
Proof.
  apply (get_account_balance_integer scripted "ACC1000" "http://example" [] f1
           [Replied (json_response 200 (VDict [("balance", VInt 1000)]))] []
           (json_response 200 (VDict [("balance", VInt 1000)])) 1000);
    try reflexivity.
  right. exists [("balance", VInt 1000)]. split; reflexivity.
Defined.

Section AuthEdges.

Context {World : Type} (send : request -> World -> outcome * World).
Variables (base_url username password claim : string) (timeout : float).

Let req := auth_request base_url username password claim timeout.

(** X14. Whatever the service answers, [get_auth_token] issues exactly one
    request: a POST of [{base}/authToken?claim={claim}] with the user name
    and the password in its JSON body and no headers of its own. *)
Theorem get_auth_token_one_request (w : World) :
  trace (run send (get_auth_token base_url username password claim timeout) w) = [req]
  /\ req_method req = POST
  /\ req_url req = Str.rstrip "/" base_url ++ "/authToken?claim=" ++ claim
  /\ req_json req = Some (VDict [("username", VStr username); ("password", VStr password)])
  /\ req_headers req = None.
Proof.
  split; [| repeat split].
  unfold get_auth_token, requests_post. cbn [bind try_except].
  fold (auth_request base_url username password claim timeout). fold req.
  apply run_one_send. intros [| resp]; [simpl; exact I |].
  apply always_sends_try_except.
  - cbn [bind]. apply always_sends_bind.
    { unfold raise_for_status. destruct (_ && _); exact I. }
    intros _. apply always_sends_bind.
    { unfold resp_json. destruct (json_body resp); exact I. }
    intros data.
    assert (Hg : forall k, always_sends (fun _ => False) (get_method data k)).
    { intros k. destruct data; simpl; auto. destruct (lookup k d); exact I. }
    apply always_sends_bind; [apply Hg |].
    intros t. apply always_sends_bind.
    + destruct (truthy t); [exact I | apply Hg].
    + intros token. destruct (truthy token); exact I.
  - intros e q. destruct (is_RequestException e); [intros [= <-]; exact I |].
    destruct (is_ValueError e); [intros [= <-]; exact I | discriminate].
Qed.

(** X15. On a reply that passes [raise_for_status] with a JSON body that
    is not an object (a list, a string, a number, [null]),
    [get_auth_token] does not return [None]: [data.get] does not exist and
    the [AttributeError] reaches the caller. *)
Theorem get_auth_token_escapes (w w' : World) (r : response) (v : value) :
  send req w = (Replied r, w') -> status_ok r = true ->
  json_body r = Some v -> is_dict v = false ->
  run send (get_auth_token base_url username password claim timeout) w
  = (Raised AttributeError, w', [req]).
Proof.
  intros Hsend Hok Hjson Hv.
  apply (get_auth_token_not_an_object send base_url username password claim timeout
           w w' r v Hsend Hok Hjson Hv).
Qed.

End AuthEdges.

Lemma get_auth_token_escapes_witness :
  run scripted (get_auth_token "http://example/" "alice" "secret" "enquiry" f1)
      [Replied (json_response 200 (VList [VStr "abc"]))]
  = (Raised AttributeError, [],
     [auth_request "http://example/" "alice" "secret" "enquiry" f1]).
Proof.
  apply (get_auth_token_escapes scripted "http://example/" "alice" "secret"
           "enquiry" f1
           [Replied (json_response 200 (VList [VStr "abc"]))] []
           (json_response 200 (VList [VStr "abc"])) (VList [VStr "abc"]));
    reflexivity.
Defined.

(** ** Configuration and [main] *)

Lemma lookup_app {A : Type} (k : string) (l l' : list (string * A)) :
  lookup k (l ++ l') = match lookup k l with Some v => Some v | None => lookup k l' end.
Proof.
  induction l as [| [k' v] l IH]; simpl; [reflexivity |].
  destruct (String.eqb k' k); [reflexivity | exact IH].
Qed.

(** A variable looked up after [load_dotenv()]: the environment first. *)
Lemma lookup_after_dotenv (k : string) (env : list (string * string))
    (dotenv : option (list (string * string))) (v : string) :
  lookup k env = Some v ->
  lookup k (match dotenv with Some vars => (env ++ vars)%list | None => env end) = Some v.
Proof.
  intros H. destruct dotenv as [vars |]; [| exact H].
  rewrite lookup_app, H. reflexivity.
Qed.

Section Config.

Variables (env : list (string * string)) (dotenv : option (list (string * string)))
          (fs : string -> option ini) (default_path : string) (config_path : option string).

(** The file that [load_config] reads, if it exists. *)
Let file : option ini :=
  fs (match config_path with Some p => p | None => default_path end).

(** X16. A setting given in the environment wins over the configuration
    file and over the .env file: in the configuration that [load_config]
    returns, the endpoint is [TRANSFER_ENDPOINT], the dry-run flag is the
    reading of [DRY_RUN] and the timeout is [TIMEOUT] read as a float, each
    whenever the variable is set. *)
Theorem load_config_environment_wins (cfg : config) :
  load_config env dotenv fs default_path config_path = Ok cfg ->
  (forall e, lookup "TRANSFER_ENDPOINT" env = Some e -> cfg_endpoint cfg = e)
  /\ (forall v, lookup "DRY_RUN" env = Some v -> cfg_dry_run cfg = is_true_word v)
  /\ (forall v, lookup "TIMEOUT" env = Some v -> Float.of_string v = Some (cfg_timeout cfg)).
Proof.
  unfold load_config, getenv. fold file.
  destruct (Float.of_string match lookup "TIMEOUT" env with Some v => v | None => "5.0" end)
    as [t0 |] eqn:Et0; [| discriminate].
  destruct file as [parser |].
  - destruct (lookup "transfer" (ini_sections parser)) as [section |].
    + cbv zeta.
      destruct (match lookup "TIMEOUT" _ with Some v => Float.of_string v | None => _ end)
        as [t |] eqn:Et; [| discriminate].
      intros [= <-]. cbn [cfg_endpoint cfg_dry_run cfg_timeout].
      split; [| split].
      * intros e He. rewrite (lookup_after_dotenv _ env dotenv e He). reflexivity.
      * intros v Hv. rewrite (lookup_after_dotenv _ env dotenv v Hv). reflexivity.
      * intros v Hv. rewrite (lookup_after_dotenv _ env dotenv v Hv) in Et. exact Et.
    + intros [= <-]. cbn [cfg_endpoint cfg_dry_run cfg_timeout].
      split; [| split]; intros v Hv; rewrite Hv in *; [reflexivity | reflexivity | exact Et0].
  - intros [= <-]. cbn [cfg_endpoint cfg_dry_run cfg_timeout].
    split; [| split]; intros v Hv; rewrite Hv in *; [reflexivity | reflexivity | exact Et0].
Qed.

(** X17. A setting absent from the environment and from the .env file is
    taken from the [transfer] section of the configuration file (or from
    its DEFAULT section) when the option is there. *)
Theorem load_config_file_over_default (cfg : config) (parser : ini)
    (section : list (string * string)) :
  load_config env dotenv fs default_path config_path = Ok cfg ->
  file = Some parser -> lookup "transfer" (ini_sections parser) = Some section ->
  (forall e, lookup "TRANSFER_ENDPOINT" env = None ->
             (forall vars, dotenv = Some vars -> lookup "TRANSFER_ENDPOINT" vars = None) ->
             section_find parser section "endpoint" = Some e ->
             cfg_endpoint cfg = e)
  /\ (forall v, lookup "DRY_RUN" env = None ->
                (forall vars, dotenv = Some vars -> lookup "DRY_RUN" vars = None) ->
                section_find parser section "dry_run" = Some v ->
                cfg_dry_run cfg = is_true_word v)
  /\ (forall v, lookup "TIMEOUT" env = None ->
                (forall vars, dotenv = Some vars -> lookup "TIMEOUT" vars = None) ->
                section_find parser section "timeout" = Some v ->
                Float.of_string v = Some (cfg_timeout cfg)).
Proof.
  unfold load_config, getenv. fold file. intros Hload Hfile Hsec.
  rewrite Hfile, Hsec in Hload.
  destruct (Float.of_string match lookup "TIMEOUT" env with Some v => v | None => "5.0" end)
    as [t0 |] eqn:Et0; [| discriminate].
  cbv zeta in Hload.
  destruct (match lookup "TIMEOUT" _ with Some v => Float.of_string v | None => _ end)
    as [t |] eqn:Et; [| discriminate].
  injection Hload as <-. cbn [cfg_endpoint cfg_dry_run cfg_timeout].
  assert (Hno : forall k, lookup k env = None ->
                  (forall vars, dotenv = Some vars -> lookup k vars = None) ->
                  lookup k (match dotenv with Some vars => (env ++ vars)%list | None => env end)
                  = None).
  { intros k Hk Hd. destruct dotenv as [vars |]; [| exact Hk].
    rewrite lookup_app, Hk. apply Hd. reflexivity. }
  split; [| split].
  - intros e He Hd Hf. rewrite (Hno _ He Hd). unfold section_get. rewrite Hf. reflexivity.
  - intros v Hv Hd Hf. rewrite (Hno _ Hv Hd). unfold section_get. rewrite Hf. reflexivity.
  - intros v Hv Hd Hf. rewrite (Hno _ Hv Hd), Hf in Et. exact Et.
Qed.

(** X18. With none of the three variables in the environment, and the
    configuration file missing or without a [transfer] section,
    [load_config] returns the defaults, whatever the .env file holds: the
    endpoint [http://localhost:8123/], dry run on, a timeout of 5.0. *)
Theorem load_config_defaults :
  lookup "TRANSFER_ENDPOINT" env = None -> lookup "DRY_RUN" env = None ->
  lookup "TIMEOUT" env = None ->
  file = None \/ (exists parser, file = Some parser
                                 /\ lookup "transfer" (ini_sections parser) = None) ->
  load_config env dotenv fs default_path config_path
  = Ok (mkConfig "http://localhost:8123/" true (Float.of_decimal false 50 (-1))).
Proof.
  intros He Hd Ht Hfile. unfold load_config, getenv. fold file.
  rewrite He, Hd, Ht.
  change (Float.of_string "5.0") with (Some (Float.of_decimal false 50 (-1))).
  cbv iota beta zeta.
  destruct Hfile as [-> | [parser [-> ->]]]; reflexivity.
Qed.

(** X19. The .env file is read after the first settings have been taken
    from the environment, so it matters only through the second reading,
    made when the configuration file has a [transfer] section: without
    such a section [load_config] gives what it gives without any .env
    file; with one, a [TRANSFER_ENDPOINT] of the .env file that the
    environment does not set becomes the endpoint, also over the file's
    own. *)
Theorem load_config_dotenv_needs_section :
  (file = None \/ (exists parser, file = Some parser
                                  /\ lookup "transfer" (ini_sections parser) = None) ->
   load_config env dotenv fs default_path config_path
   = load_config env None fs default_path config_path)
  /\ (forall (cfg : config) (parser : ini) (section vars : list (string * string))
        (e : string),
         load_config env dotenv fs default_path config_path = Ok cfg ->
         file = Some parser -> lookup "transfer" (ini_sections parser) = Some section ->
         lookup "TRANSFER_ENDPOINT" env = None ->
         dotenv = Some vars -> lookup "TRANSFER_ENDPOINT" vars = Some e ->
         cfg_endpoint cfg = e).
Proof.
  split.
  - intros Hfile. unfold load_config. fold file.
    destruct (Float.of_string _); [| reflexivity].
    destruct Hfile as [-> | [parser [-> ->]]]; reflexivity.
  - intros cfg parser section vars e Hload Hfile Hsec He Hd Hv.
    unfold load_config, getenv in Hload. fold file in Hload.
    rewrite Hfile, Hsec, Hd in Hload.
    destruct (Float.of_string match lookup "TIMEOUT" env with Some v => v | None => "5.0" end)
      as [t0 |]; [| discriminate].
    cbv zeta in Hload.
    destruct (match lookup "TIMEOUT" _ with Some v => Float.of_string v | None => _ end)
      as [t |]; [| discriminate].
    injection Hload as <-. cbn [cfg_endpoint].
    rewrite lookup_app, He, Hv. reflexivity.
Qed.

(** X20. A [TIMEOUT] variable of the environment that is ASCII text and
    no number makes [load_config] raise [ValueError], whatever the
    configuration file and the .env file say. *)
Theorem load_config_bad_timeout (v : string) :
  lookup "TIMEOUT" env = Some v -> Str.is_ascii v = true -> Float.of_string v = None ->
  load_config env dotenv fs default_path config_path = Raised ValueError.
Proof.
  intros Hv _ Hf. unfold load_config, getenv. rewrite Hv, Hf. reflexivity.
Qed.

End Config.


Lemma load_config_environment_wins_witness :
  cfg_endpoint (mkConfig "http://bank/" true f1) = "http://bank/"
  /\ cfg_dry_run (mkConfig "http://bank/" true f1) = is_true_word "Yes"
  /\ Float.of_string "1" = Some (cfg_timeout (mkConfig "http://bank/" true f1)).
Proof.
  assert (H : load_config example_env (Some [("TRANSFER_ENDPOINT", "http://dotenv/")])
                example_fs "config.ini" None
              = Ok (mkConfig "http://bank/" true f1)) by reflexivity.
  destruct (load_config_environment_wins example_env
              (Some [("TRANSFER_ENDPOINT", "http://dotenv/")]) example_fs "config.ini" None
              (mkConfig "http://bank/" true f1) H) as [He [Hd Ht]].
  split; [apply He; reflexivity |]. split; [apply Hd; reflexivity | apply Ht; reflexivity].
Defined.

Lemma load_config_file_over_default_witness :
  cfg_endpoint (mkConfig "http://file/" false (Float.of_decimal false 25 (-1)))
  = "http://file/"
  /\ cfg_dry_run (mkConfig "http://file/" false (Float.of_decimal false 25 (-1)))
     = is_true_word "no"
  /\ Float.of_string "2.5"
     = Some (cfg_timeout (mkConfig "http://file/" false (Float.of_decimal false 25 (-1)))).
Proof.
  assert (H : load_config [] None example_fs "config.ini" None
              = Ok (mkConfig "http://file/" false (Float.of_decimal false 25 (-1))))
    by reflexivity.
  destruct (load_config_file_over_default [] None example_fs "config.ini" None
              (mkConfig "http://file/" false (Float.of_decimal false 25 (-1)))
              example_ini [("endpoint", "http://file/"); ("dry_run", "no")]
              H eq_refl eq_refl) as [He [Hd Ht]].
  split; [apply He; try reflexivity; discriminate |].
  split; [apply Hd; try reflexivity; discriminate
         | apply Ht; try reflexivity; discriminate].
Defined.

Lemma load_config_defaults_witness :
  load_config [("HOME", "/root")] (Some [("DRY_RUN", "false")]) example_fs "missing.ini" None
  = Ok (mkConfig "http://localhost:8123/" true (Float.of_decimal false 50 (-1))).
Proof.
  apply (load_config_defaults [("HOME", "/root")] (Some [("DRY_RUN", "false")])
           example_fs "missing.ini" None);
    try reflexivity.
  left; reflexivity.
Defined.

Lemma load_config_dotenv_needs_section_witness :
  load_config [] (Some [("TRANSFER_ENDPOINT", "http://dotenv/")]) example_fs "missing.ini" None
  = load_config [] None example_fs "missing.ini" None
  /\ cfg_endpoint (mkConfig "http://dotenv/" false (Float.of_decimal false 25 (-1)))
     = "http://dotenv/".
Proof.
  split.
  - apply (proj1 (load_config_dotenv_needs_section []
                    (Some [("TRANSFER_ENDPOINT", "http://dotenv/")]) example_fs
                    "missing.ini" None)).
    left; reflexivity.
  - apply (proj2 (load_config_dotenv_needs_section []
                    (Some [("TRANSFER_ENDPOINT", "http://dotenv/")]) example_fs
                    "config.ini" None)
             (mkConfig "http://dotenv/" false (Float.of_decimal false 25 (-1)))
             example_ini [("endpoint", "http://file/"); ("dry_run", "no")]
             [("TRANSFER_ENDPOINT", "http://dotenv/")] "http://dotenv/");
      reflexivity.
Defined.

Lemma load_config_bad_timeout_witness :
  load_config [("TIMEOUT", "soon")] None example_fs "config.ini" None = Raised ValueError.
Proof.
  apply (load_config_bad_timeout [("TIMEOUT", "soon")] None example_fs
           "config.ini" None "soon");
    reflexivity.
Defined.

Section Main.

Context {World : Type} (send : request -> World -> outcome * World).
Variables (env : list (string * string)) (dotenv : option (list (string * string)))
          (fs : string -> option ini) (default_path : string).

(** X21. With a configuration whose dry-run flag is on, [main] issues no
    request at all and prints the simulated result for ACC1000, ACC1001
    and the amount 100.0. *)
Theorem main_dry_run_no_request (cfg : config) (w : World) :
  load_config env dotenv fs default_path None = Ok cfg -> cfg_dry_run cfg = true ->
  run send (main env dotenv fs default_path) w
  = (Ok (SimulatedResult
           (VDict [("status", VStr "dry-run"); ("from", VStr "ACC1000");
                   ("to", VStr "ACC1001"); ("amount", VFloat f100)])),
     w, []).
Proof.
  intros Hload Hdry. unfold main. rewrite Hload. cbv zeta. rewrite Hdry. reflexivity.
Qed.

(** X22. Out of the box [main] does not touch the network: with neither
    [DRY_RUN] nor [TIMEOUT] in the environment and no config.ini beside the
    module, it issues no request, whatever the service, the endpoint
    variable and the .env file are. *)
Theorem main_default_no_request (w : World) :
  lookup "DRY_RUN" env = None -> lookup "TIMEOUT" env = None ->
  fs default_path = None ->
  trace (run send (main env dotenv fs default_path) w) = []
  /\ exists v, returned (run send (main env dotenv fs default_path) w)
               = Ok (SimulatedResult v).
Proof.
  intros Hd Ht Hfs. unfold main, load_config, getenv. rewrite Hd, Ht, Hfs.
  change (Float.of_string "5.0") with (Some (Float.of_decimal false 50 (-1))).
  cbv iota beta zeta. cbn [cfg_dry_run is_true_word].
  split; [reflexivity | eexists; reflexivity].
Qed.

(** The run of a program whose result is only wrapped at the end. *)
Lemma run_bind_ret {A B : Type} (p : prog A) (f : A -> B) (w : World) :
  trace (run send (x <- p ;; Ret (f x)) w) = trace (run send p w)
  /\ returned (run send (x <- p ;; Ret (f x)) w)
     = match returned (run send p w) with
       | Ok a => Ok (f a)
       | Raised e => Raised e
       end.
Proof.
  rewrite run_bind. destruct (run send p w) as [[[a | e] w'] t]; unfold trace, returned; simpl.
  - rewrite app_nil_r. split; reflexivity.
  - split; reflexivity.
Qed.

(** X23. [main] never authenticates: whatever the configuration and the
    service, no request it issues has an [Authorization] header. *)
Theorem main_sends_no_authorization (w : World) :
  Forall (fun r => authorization r = None)
         (trace (run send (main env dotenv fs default_path) w)).
Proof.
  unfold main. destruct (load_config env dotenv fs default_path None) as [cfg | e];
    [| constructor].
  cbv zeta. destruct (cfg_dry_run cfg); [constructor |].
  rewrite (proj1 (run_bind_ret _ TransferResult w)).
  apply (transfer_money_authorization send "ACC1000" "ACC1001" f100
           (Some (cfg_endpoint cfg)) (cfg_timeout cfg) None w).
Qed.

(** X24. In a live run, with the configuration loaded and dry run off,
    [main] issues exactly the requests of [transfer_money] for ACC1000,
    ACC1001 and 100.0 at the configured endpoint and timeout, without a
    token; it prints what [transfer_money] returns, and an exception of
    [transfer_money] goes through [main]. *)
Theorem main_live_run (cfg : config) (w : World) :
  load_config env dotenv fs default_path None = Ok cfg -> cfg_dry_run cfg = false ->
  trace (run send (main env dotenv fs default_path) w)
  = trace (run send (transfer_money "ACC1000" "ACC1001" f100 (Some (cfg_endpoint cfg))
                       (cfg_timeout cfg) None) w)
  /\ returned (run send (main env dotenv fs default_path) w)
     = match returned (run send (transfer_money "ACC1000" "ACC1001" f100
                                   (Some (cfg_endpoint cfg)) (cfg_timeout cfg) None) w)
       with
       | Ok v => Ok (TransferResult v)
       | Raised e => Raised e
       end.
Proof.
  intros Hload Hdry. unfold main. rewrite Hload. cbv zeta. rewrite Hdry.
  apply run_bind_ret.
Qed.

End Main.

Lemma main_dry_run_no_request_witness :
  run scripted (main example_env None example_fs "config.ini")
      [Replied ok_empty]
  = (Ok (SimulatedResult
           (VDict [("status", VStr "dry-run"); ("from", VStr "ACC1000");
                   ("to", VStr "ACC1001"); ("amount", VFloat f100)])),
     [Replied ok_empty], []).
Proof.
  apply (main_dry_run_no_request scripted example_env None example_fs "config.ini"
           (mkConfig "http://bank/" true f1) [Replied ok_empty]);
    reflexivity.
Defined.

Lemma main_default_no_request_witness :
  trace (run scripted
           (main [("TRANSFER_ENDPOINT", "http://bank/")] (Some [("DRY_RUN", "false")])
                 example_fs "missing.ini")
           [Replied ok_empty]) = [].
Proof.
  apply (main_default_no_request scripted [("TRANSFER_ENDPOINT", "http://bank/")]
           (Some [("DRY_RUN", "false")]) example_fs "missing.ini" [Replied ok_empty]);
    reflexivity.
Defined.

Lemma main_live_run_witness :
  returned (run scripted (main [] None example_fs "config.ini")
              [Replied ok_empty; Replied ok_empty; Replied (balance_reply f1000);
               Replied (json_response 200 tx123)])
  = Ok (TransferResult tx123).
Proof.
  exact (proj2 (main_live_run scripted [] None example_fs "config.ini"
                  (mkConfig "http://file/" false (Float.of_decimal false 25 (-1)))
                  [Replied ok_empty; Replied ok_empty; Replied (balance_reply f1000);
                   Replied (json_response 200 tx123)]
                  eq_refl eq_refl)).
Defined.
